(** * torchbiggraph.config: overrides, validation and the config file loader

    A shallow embedding of [torchbiggraph/config.py]:
    - [override_config_dict], the engine applying textual [path=value]
      overrides to a raw configuration;
    - [ConfigSchema.__attrs_post_init__], the cross-field validation pass;
    - [parse_config], the conversion of a validation error into an exit;
    - [ConfigFileLoader.__init__] and [ConfigFileLoader.__del__], which
      manage one entry of the shared module search path;
    - [ConfigFileLoader.load_raw_config], [ConfigFileLoader.load_config],
      [add_to_sys_path], the way [main] passes its overrides on, and the
      values of [BucketOrder].

    Python text is modelled by [string] (a sequence of code points below
    256), Python [int] by [Z], exceptions by an explicit [result] type,
    the log by a list of records, and in-place mutation by explicit state
    passing.  The built-ins follow CPython 3.11. *)

From Stdlib Require Import ZArith String Ascii DecimalString SpecFloat.
From stdpp Require Import base list strings gmap.

Open Scope string_scope.
Set Warnings "-register-all".

(** ** Exceptions and results *)

(** The exception classes that occur in the module and in the built-ins it
    calls.  [PathError] is the failure of the type navigator, under the name
    the specification gives it; [KeyboardInterrupt] stands for the classes
    deriving from [BaseException] but not from [Exception]. *)
Inductive ExcClass :=
| ValueError | TypeError | KeyError | IndexError | AttributeError
| RuntimeError | OSError | FileNotFoundError | DeepTypeError | PathError
| KeyboardInterrupt.

(** An exception instance: [Exc cls msg cause] is [cls(msg)], with
    [__cause__] set by [raise ... from cause]; [SystemExit code] is
    [SystemExit(code)]. *)
Inductive exn :=
| Exc (cls : ExcClass) (msg : string) (cause : option exn)
| SystemExit (code : Z).

Inductive result (A : Type) :=
| Ok (a : A)
| Raise (e : exn).
Arguments Ok {A} a.
Arguments Raise {A} e.

(** [issubclass(cls, Exception)] *)
Definition class_is_Exception (cls : ExcClass) : bool :=
  match cls with
  | KeyboardInterrupt => false
  | _ => true
  end.

(** [isinstance(e, Exception)]; [SystemExit] derives from [BaseException]
    only. *)
Definition is_Exception (e : exn) : bool :=
  match e with
  | Exc cls _ _ => class_is_Exception cls
  | SystemExit _ => false
  end.

(** [isinstance(e, DeepTypeError)] *)
Definition is_DeepTypeError (e : exn) : bool :=
  match e with
  | Exc DeepTypeError _ _ => true
  | _ => false
  end.

(** [str(e)], as used by the f-string in [parse_config]. *)
Definition exn_str (e : exn) : string :=
  match e with
  | Exc _ msg _ => msg
  | SystemExit code => NilEmpty.string_of_int (Z.to_int code)
  end.

(** ** Built-in string operations *)

Module Str.

(** Whether character [c] occurs in [s]. *)
Fixpoint contains (c : ascii) (s : string) : bool :=
  match s with
  | EmptyString => false
  | String a rest => Ascii.eqb a c || contains c rest
  end.

(** The split point of [s] at the last occurrence of [sep], if any. *)
Fixpoint rfind_split (sep : ascii) (s : string) : option (string * string) :=
  match s with
  | EmptyString => None
  | String a rest =>
      match rfind_split sep rest with
      | Some (head, tail) => Some (String a head, tail)
      | None => if Ascii.eqb a sep then Some (EmptyString, rest) else None
      end
  end.

(** [s.rpartition(sep)] for a one-character separator: the text before
    the last occurrence of [sep], the separator, and the text after it;
    two empty strings and [s] when [sep] does not occur. *)
Definition rpartition (sep : ascii) (s : string) : string * string * string :=
  match rfind_split sep s with
  | Some (head, tail) => (head, String sep EmptyString, tail)
  | None => (EmptyString, EmptyString, s)
  end.

(** [s.split(sep)] for a one-character separator: the pieces between the
    occurrences of [sep], empty pieces included. *)
Fixpoint split (sep : ascii) (s : string) : list string :=
  match s with
  | EmptyString => [EmptyString]
  | String a rest =>
      if Ascii.eqb a sep then EmptyString :: split sep rest
      else match split sep rest with
           | piece :: pieces => String a piece :: pieces
           | [] => [String a EmptyString]
           end
  end.

(** [sep.join(pieces)] for a one-character separator. *)
Fixpoint join (sep : ascii) (pieces : list string) : string :=
  match pieces with
  | [] => EmptyString
  | [piece] => piece
  | piece :: rest => piece +:+ String sep (join sep rest)
  end.

Definition double_quote : ascii := "034".
Definition backslash : ascii := "092".

(** [str.isprintable] on one code point below 256: the control
    characters, the no-break space and the soft hyphen are not printable. *)
Definition is_printable (c : ascii) : bool :=
  let n := nat_of_ascii c in
  (((32 <=? n) && (n <? 127)) || ((161 <=? n) && negb (n =? 173)))%nat.

Definition hex_digit (n : nat) : ascii :=
  ascii_of_nat (if (n <? 10)%nat then 48 + n else 87 + n).

(** How [repr] shows one character inside the quotes [quote]. *)
Definition escape (quote c : ascii) : string :=
  let n := nat_of_ascii c in
  if Ascii.eqb c quote || Ascii.eqb c backslash
  then String backslash (String c EmptyString)
  else if (n =? 9)%nat then String backslash "t"
  else if (n =? 10)%nat then String backslash "n"
  else if (n =? 13)%nat then String backslash "r"
  else if is_printable c then String c EmptyString
  else String backslash
         (String "x" (String (hex_digit (n / 16))
                        (String (hex_digit (n mod 16)) EmptyString))).

Fixpoint escape_all (quote : ascii) (s : string) : string :=
  match s with
  | EmptyString => EmptyString
  | String c rest => escape quote c +:+ escape_all quote rest
  end.

(** [repr(s)]: single quotes, or double quotes when [s] holds a single
    quote and no double quote; the quote in use, the backslash and the
    characters that are not printable are escaped. *)
Definition repr (s : string) : string :=
  let quote :=
    if contains "'" s && negb (contains double_quote s) then double_quote else "'"%char in
  String quote (escape_all quote s +:+ String quote EmptyString).

End Str.

(** ** The built-in [int] constructor on text *)

(** [%d] of a number that is not negative. *)
Definition format_d (n : nat) : string := NilEmpty.string_of_uint (Nat.to_uint n).

(** The characters [int] skips around the number: tab, line feed,
    vertical tab, form feed, carriage return and space, and of the code
    points from 128 to 255 the next-line character and the no-break
    space. *)
Definition is_space (c : ascii) : bool :=
  let n := nat_of_ascii c in
  ((n =? 32) || ((9 <=? n) && (n <=? 13)) || (n =? 133) || (n =? 160))%nat.

Fixpoint lstrip (s : string) : string :=
  match s with
  | EmptyString => EmptyString
  | String a rest => if is_space a then lstrip rest else s
  end.

Definition digit_of (c : ascii) : option Z :=
  let n := nat_of_ascii c in
  if ((48 <=? n) && (n <=? 57))%nat then Some (Z.of_nat (n - 48)) else None.

(** The run of decimal digits at the start of [s], with single
    underscores allowed between two digits: its value, the number of its
    digits and the text after it.  [acc] is the value read so far, [count]
    the number of digits read, [after_digit] tells whether the previous
    character was a digit.  There is no result when the run is empty, has
    two underscores in a row or does not end with a digit. *)
Fixpoint scan_digits (s : string) (acc : Z) (count : nat) (after_digit : bool)
  : option (Z * nat * string) :=
  match s with
  | EmptyString => if after_digit then Some (acc, count, s) else None
  | String c rest =>
      match digit_of c with
      | Some d => scan_digits rest (10 * acc + d)%Z (S count) true
      | None =>
          if after_digit
          then if Ascii.eqb c "_" then scan_digits rest acc count false
               else Some (acc, count, s)
          else None
      end
  end.

(** The default of [sys.int_info.default_max_str_digits]. *)
Definition max_str_digits : nat := 4300.

(** [int(s)] in base 10 on CPython 3.11, for text of code points below
    256: leading white space is skipped, one sign is allowed, then comes
    the run of digits, which may not have more than [max_str_digits]
    digits, then white space only.  The message for text that is no number
    shows at most 200 characters of its [repr]. *)
Definition py_int (s : string) : result Z :=
  let invalid :=
    Raise (Exc ValueError
             ("invalid literal for int() with base 10: "
              +:+ String.substring 0 200 (Str.repr s)) None) in
  let '(negative, body) :=
    match lstrip s with
    | String "-" body => (true, body)
    | String "+" body => (false, body)
    | body => (false, body)
    end in
  match scan_digits body 0 0 false with
  | None => invalid
  | Some (n, count, rest) =>
      if (max_str_digits <? count)%nat
      then Raise (Exc ValueError
                    ("Exceeds the limit (" +:+ format_d max_str_digits
                     +:+ " digits) for integer string conversion: value has "
                     +:+ format_d count
                     +:+ " digits; use sys.set_int_max_str_digits() to increase the limit")
                    None)
      else match lstrip rest with
           | EmptyString => Ok (if negative then (- n)%Z else n)
           | _ => invalid
           end
  end.

(** ** Types as values *)

(** The type objects the schema is annotated with.  [Tint], [Tfloat],
    [Tbool] and [Tstr] are the built-in classes, [TBucketOrder] the [Enum]
    class, [TEntitySchema], [TRelationSchema] and [TConfigSchema] the three
    schema classes; [TOptional], [TList] and [TDict] are the [typing]
    constructs [Optional[t]], [List[t]] and [Dict[k, v]]. *)
Inductive PyType :=
| Tint | Tfloat | Tbool | Tstr
| TBucketOrder
| TEntitySchema | TRelationSchema | TConfigSchema
| TOptional (t : PyType)
| TList (t : PyType)
| TDict (k v : PyType).

(** [isinstance(t, type)]: true of classes, false of the [typing]
    constructs. *)
Definition isinstance_type (t : PyType) : bool :=
  match t with
  | TOptional _ | TList _ | TDict _ _ => false
  | _ => true
  end.

(** [issubclass(t, (int, float))] for a class [t]; [bool] derives from
    [int]. *)
Definition issubclass_int_float (t : PyType) : bool :=
  match t with
  | Tint | Tfloat | Tbool => true
  | _ => false
  end.

(** [issubclass(t, bool)] for a class [t]. *)
Definition issubclass_bool (t : PyType) : bool :=
  match t with
  | Tbool => true
  | _ => false
  end.

(** The origins [has_origin] is asked about. *)
Inductive Origin := origin_list | origin_dict.

(** Modelled from the spec: [has_origin] of [torchbiggraph.schema] is not
    among the sources.  The override engine uses it to recognise a resolved
    type that is a sequence type. *)
Definition has_origin (type_ : PyType) (base_type : Origin) : bool :=
  match type_, base_type with
  | TList _, origin_list => true
  | TDict _ _, origin_dict => true
  | _, _ => false
  end.

(** The attributes of the schema classes with their annotations, in
    declaration order ([attr.fields]). *)
Definition EntitySchema_fields : list (string * PyType) :=
  [ ("num_partitions", Tint);
    ("featurized", Tbool);
    ("dimension", TOptional Tint) ].

Definition RelationSchema_fields : list (string * PyType) :=
  [ ("name", Tstr);
    ("lhs", Tstr);
    ("rhs", Tstr);
    ("weight", Tfloat);
    ("operator", Tstr);
    ("all_negs", Tbool) ].

Definition ConfigSchema_fields : list (string * PyType) :=
  [ ("entities", TDict Tstr TEntitySchema);
    ("relations", TList TRelationSchema);
    ("dimension", Tint);
    ("init_scale", Tfloat);
    ("max_norm", TOptional Tfloat);
    ("global_emb", Tbool);
    ("comparator", Tstr);
    ("bias", Tbool);
    ("loss_fn", Tstr);
    ("margin", Tfloat);
    ("entity_path", Tstr);
    ("edge_paths", TList Tstr);
    ("checkpoint_path", Tstr);
    ("init_path", TOptional Tstr);
    ("checkpoint_preservation_interval", TOptional Tint);
    ("num_epochs", Tint);
    ("num_edge_chunks", TOptional Tint);
    ("max_edges_per_chunk", Tint);
    ("bucket_order", TBucketOrder);
    ("workers", TOptional Tint);
    ("batch_size", Tint);
    ("num_batch_negs", Tint);
    ("num_uniform_negs", Tint);
    ("disable_lhs_negs", Tbool);
    ("disable_rhs_negs", Tbool);
    ("lr", Tfloat);
    ("relation_lr", TOptional Tfloat);
    ("eval_fraction", Tfloat);
    ("eval_num_batch_negs", Tint);
    ("eval_num_uniform_negs", Tint);
    ("background_io", Tbool);
    ("verbose", Tint);
    ("hogwild_delay", Tfloat);
    ("dynamic_relations", Tbool);
    ("num_machines", Tint);
    ("num_partition_servers", Tint);
    ("distributed_init_method", TOptional Tstr);
    ("distributed_tree_init_order", Tbool);
    ("num_gpus", Tint);
    ("num_groups_for_partition_server", Tint);
    ("half_precision", Tbool) ].

Definition schema_fields (t : PyType) : option (list (string * PyType)) :=
  match t with
  | TEntitySchema => Some EntitySchema_fields
  | TRelationSchema => Some RelationSchema_fields
  | TConfigSchema => Some ConfigSchema_fields
  | _ => None
  end.

(** ** Raw configurations *)

(** The values of a raw configuration.  A [dict] with text keys is an
    association list in insertion order, without duplicate keys. *)
Inductive Value :=
| VNone
| VBool (b : bool)
| VInt (n : Z)
| VFloat (x : spec_float)
| VStr (s : string)
| VList (items : list Value)
| VDict (items : list (string * Value)).

(** [d[key]] *)
Fixpoint dict_get (key : string) (items : list (string * Value)) : option Value :=
  match items with
  | [] => None
  | (k, v) :: rest => if String.eqb k key then Some v else dict_get key rest
  end.

(** [d[key] = value]: replaces the value of a present key in place and
    appends an absent one. *)
Fixpoint dict_set (key : string) (value : Value) (items : list (string * Value))
  : list (string * Value) :=
  match items with
  | [] => [(key, value)]
  | (k, v) :: rest =>
      if String.eqb k key then (k, value) :: rest
      else (k, v) :: dict_set key value rest
  end.

(** ** The override engine *)

(** The text of an override value after the list split: still one string,
    or the list of its pieces. *)
Definition coerced_to_Value (value : string + list string) : Value :=
  match value with
  | inl s => VStr s
  | inr pieces => VList (VStr <$> pieces)
  end.

Section OverrideEngine.

(** The built-in [float] constructor on text. *)
Variable py_float : string -> result spec_float.

(** [extract_nested_type] and [inject_nested_value] of
    [torchbiggraph.schema], which is not among the sources.  The injector
    mutates its first argument in place: it maps the state of that object
    before the call to its state after the call and the outcome. *)
Variable extract_nested_type : PyType -> list string -> result PyType.
Variable inject_nested_value : Value -> list string -> Value -> Value * result unit.

(** [param_type(value)] for the classes that pass the numeric test. *)
Definition construct (param_type : PyType) (value : string + list string)
  : result Value :=
  match param_type, value with
  | Tint, inl s =>
      match py_int s with
      | Ok n => Ok (VInt n)
      | Raise e => Raise e
      end
  | Tfloat, inl s =>
      match py_float s with
      | Ok x => Ok (VFloat x)
      | Raise e => Raise e
      end
  | Tint, inr _ =>
      Raise (Exc TypeError
               "int() argument must be a string, a bytes-like object or a number, not 'list'"
               None)
  | Tfloat, inr _ =>
      Raise (Exc TypeError
               "float() argument must be a string or a number, not 'list'" None)
  | _, _ => Raise (Exc TypeError "not a numeric class" None)
  end.

(** Lines 439 to 445: the list split, then the numeric conversion. *)
Definition coerce (param_type : PyType) (value : string) : result Value :=
  let value : string + list string :=
    if has_origin param_type origin_list
    then inr (Str.split "," value)
    else inl value in
  if isinstance_type param_type
     && issubclass_int_float param_type
     && negb (issubclass_bool param_type)
  then construct param_type value
  else Ok (coerced_to_Value value).

(** The body of the [try] block for one override. *)
Definition override_body (config_dict : Value) (override : string)
  : Value * result unit :=
  let '(key, _, value) := Str.rpartition "=" override in
  let path := Str.split "." key in
  match extract_nested_type TConfigSchema path with
  | Raise e => (config_dict, Raise e)
  | Ok param_type =>
      match coerce param_type value with
      | Raise e => (config_dict, Raise e)
      | Ok value => inject_nested_value config_dict path value
      end
  end.

(** One iteration of the loop: the [try] block with its handler, which
    catches the instances of [Exception] only. *)
Definition override_one (config_dict : Value) (override : string)
  : Value * result unit :=
  match override_body config_dict override with
  | (config_dict', Raise err) =>
      if is_Exception err
      then (config_dict',
            Raise (Exc RuntimeError ("Can't parse override: " +:+ override)
                     (Some err)))
      else (config_dict', Raise err)
  | ok => ok
  end.

(** The loop over the flattened overrides; it stops at the first
    exception. *)
Fixpoint override_loop (config_dict : Value) (overrides : list string)
  : Value * result unit :=
  match overrides with
  | [] => (config_dict, Ok tt)
  | override :: rest =>
      match override_one config_dict override with
      | (config_dict', Ok _) => override_loop config_dict' rest
      | failed => failed
      end
  end.

(** [override_config_dict(config_dict, overrides)]: the state of the
    [config_dict] object after the call, and the returned value (that
    same object) or the exception raised. *)
Definition override_config_dict (config_dict : Value)
    (overrides : option (list (list string))) : Value * result Value :=
  let overrides := match overrides with None => [] | Some o => o end in
  let overrides := concat overrides in
  match override_loop config_dict overrides with
  | (config_dict', Ok _) => (config_dict', Ok config_dict')
  | (config_dict', Raise e) => (config_dict', Raise e)
  end.

End OverrideEngine.

(** The semantic type behind an annotation: [Optional[t]] stands for an
    attribute of type [t] whose value may be absent. *)
Fixpoint unpack_optional (type_ : PyType) : PyType :=
  match type_ with
  | TOptional inner_type => unpack_optional inner_type
  | _ => type_
  end.

(** Modelled from the spec: [extract_nested_type] of [torchbiggraph.schema]
    is not among the sources.  Following the Type Navigator of the
    specification, it resolves a path of segments against a type and
    returns the semantic type found there: a segment names an attribute of
    a schema class, any segment descends into the element type of a mapping
    or of a sequence, and descending into anything else fails, as does a
    segment naming no attribute.  The semantic types of the specification
    are scalar kinds, the enumeration, record types, mappings and
    sequences; optionality belongs to the attribute and not to its type, so
    an [Optional] annotation resolves to the type it wraps. *)
Fixpoint spec_extract_nested_type (type_ : PyType) (path : list string)
  : result PyType :=
  match path with
  | [] => Ok (unpack_optional type_)
  | key :: rest =>
      match unpack_optional type_ with
      | TList element_type => spec_extract_nested_type element_type rest
      | TDict _ value_type => spec_extract_nested_type value_type rest
      | record_type =>
          match schema_fields record_type with
          | Some fields =>
              match List.find (fun f => String.eqb (fst f) key) fields with
              | Some (_, field_type) => spec_extract_nested_type field_type rest
              | None => Raise (Exc PathError ("unknown attribute " +:+ key) None)
              end
          | None => Raise (Exc PathError ("cannot descend into a scalar at " +:+ key) None)
          end
      end
  end.

(** The index a path segment denotes in a sequence of [len] elements. *)
Definition list_index (key : string) (len : nat) : result nat :=
  match py_int key with
  | Ok i =>
      if ((0 <=? i) && (i <? Z.of_nat len))%Z then Ok (Z.to_nat i)
      else Raise (Exc IndexError "list index out of range" None)
  | Raise e => Raise e
  end.

(** Modelled from the spec: [inject_nested_value] of [torchbiggraph.schema]
    is not among the sources.  Following the Value Injector of the
    specification, it walks the raw value along the path, creates an empty
    mapping at each intermediate segment absent from a mapping, never
    creates a sequence element, and sets the leaf, overwriting a prior
    value. *)
Fixpoint spec_inject_nested_value (raw : Value) (path : list string) (value : Value)
  : Value * result unit :=
  match path with
  | [] => (raw, Raise (Exc ValueError "empty path" None))
  | key :: rest =>
      match raw with
      | VDict items =>
          match rest with
          | [] => (VDict (dict_set key value items), Ok tt)
          | _ :: _ =>
              let child := default (VDict []) (dict_get key items) in
              match spec_inject_nested_value child rest value with
              | (child', Ok _) => (VDict (dict_set key child' items), Ok tt)
              | (_, Raise e) => (raw, Raise e)
              end
          end
      | VList elements =>
          match list_index key (length elements) with
          | Raise e => (raw, Raise e)
          | Ok i =>
              match rest with
              | [] => (VList (<[i:=value]> elements), Ok tt)
              | _ :: _ =>
                  match elements !! i with
                  | Some child =>
                      match spec_inject_nested_value child rest value with
                      | (child', Ok _) => (VList (<[i:=child']> elements), Ok tt)
                      | (_, Raise e) => (raw, Raise e)
                      end
                  | None => (raw, Raise (Exc IndexError "list index out of range" None))
                  end
              end
          end
      | _ => (raw, Raise (Exc TypeError "cannot inject into a scalar" None))
      end
  end.

(** ** The schema classes and the cross-field validation *)

Inductive BucketOrder := RANDOM | AFFINITY | INSIDE_OUT | OUTSIDE_IN.

(** The records handed to the logger [torchbiggraph], oldest first. *)
Inductive Level := WARNING | CRITICAL.
Definition LogRecord : Type := Level * string.

Module EntitySchema.
Record t := {
  num_partitions : Z;
  featurized : bool;
  dimension : option Z;
}.
End EntitySchema.

Module RelationSchema.
Record t := {
  name : string;
  lhs : string;
  rhs : string;
  weight : spec_float;
  operator : string;
  all_negs : bool;
}.
End RelationSchema.

Module ConfigSchema.
Record t := {
  (* model config *)
  entities : gmap string EntitySchema.t;
  relations : list RelationSchema.t;
  dimension : Z;
  init_scale : spec_float;
  max_norm : option spec_float;
  global_emb : bool;
  comparator : string;
  bias : bool;
  loss_fn : string;
  margin : spec_float;
  (* data config *)
  entity_path : string;
  edge_paths : list string;
  checkpoint_path : string;
  init_path : option string;
  checkpoint_preservation_interval : option Z;
  (* training config *)
  num_epochs : Z;
  num_edge_chunks : option Z;
  max_edges_per_chunk : Z;
  bucket_order : BucketOrder;
  workers : option Z;
  batch_size : Z;
  num_batch_negs : Z;
  num_uniform_negs : Z;
  disable_lhs_negs : bool;
  disable_rhs_negs : bool;
  lr : spec_float;
  relation_lr : option spec_float;
  eval_fraction : spec_float;
  eval_num_batch_negs : Z;
  eval_num_uniform_negs : Z;
  (* expert options *)
  background_io : bool;
  verbose : Z;
  hogwild_delay : spec_float;
  dynamic_relations : bool;
  (* distributed training config options *)
  num_machines : Z;
  num_partition_servers : Z;
  distributed_init_method : option string;
  distributed_tree_init_order : bool;
  num_gpus : Z;
  num_groups_for_partition_server : Z;
  half_precision : bool;
}.

(** The loop over [enumerate(self.relations)], from index [rel_id] on. *)
Fixpoint check_relations (entities : gmap string EntitySchema.t) (rel_id : nat)
    (relations : list RelationSchema.t) : result unit :=
  match relations with
  | [] => Ok tt
  | rel_config :: rest =>
      if decide (entities !! RelationSchema.lhs rel_config = None)
      then Raise (Exc ValueError
                    ("Relation type " +:+ RelationSchema.name rel_config
                     +:+ " (#" +:+ format_d rel_id
                     +:+ ") has an unknown left-hand side entity type "
                     +:+ RelationSchema.lhs rel_config) None)
      else if decide (entities !! RelationSchema.rhs rel_config = None)
      then Raise (Exc ValueError
                    ("Relation type " +:+ RelationSchema.name rel_config
                     +:+ " (#" +:+ format_d rel_id
                     +:+ ") has an unknown right-hand side entity type "
                     +:+ RelationSchema.rhs rel_config) None)
      else check_relations entities (S rel_id) rest
  end.

(** [__attrs_post_init__]: the records logged and the outcome. *)
Definition __attrs_post_init__ (self : t) : list LogRecord * result unit :=
  match check_relations (entities self) 0 (relations self) with
  | Raise e => ([], Raise e)
  | Ok _ =>
      if dynamic_relations self && negb (length (relations self) =? 1)%nat
      then ([], Raise (Exc ValueError
                         "When dynamic relations are in use only one relation type must be defined."
                         None))
      else
        let log1 :=
          if String.eqb (loss_fn self) "logistic" && String.eqb (comparator self) "cos"
          then [(WARNING, "You have logistic loss and cosine distance. Are you sure?")]
          else [] in
        if disable_lhs_negs self && disable_rhs_negs self
        then (log1, Raise (Exc ValueError
                             "Cannot disable negative sampling on both sides." None))
        else
          let log2 :=
            if background_io self
            then [(WARNING, "`background_io` is deprecated and will have no effect.")]
            else [] in
          ((log1 ++ log2)%list, Ok tt)
  end.

Section Construction.

(** The per-attribute validators ([non_empty], [positive],
    [non_negative] of [torchbiggraph.schema], not among the sources)
    as the generated [__init__] runs them on the assembled attributes,
    before [__attrs_post_init__]. *)
Variable run_validators : t -> result unit.

(** Instantiating [ConfigSchema] from attribute values: the instance
    exists only if the validators and [__attrs_post_init__] return. *)
Definition new (self : t) : list LogRecord * result t :=
  match run_validators self with
  | Raise e => ([], Raise e)
  | Ok _ =>
      match __attrs_post_init__ self with
      | (log, Ok _) => (log, Ok self)
      | (log, Raise e) => (log, Raise e)
      end
  end.

End Construction.
End ConfigSchema.

(** ** [parse_config] *)

Section ParseConfig.

(** [ConfigSchema.from_dict], inherited from [Schema] of
    [torchbiggraph.schema], which is not among the sources: the records
    it logs and the validated configuration or the exception raised. *)
Variable from_dict : Value -> list LogRecord * result ConfigSchema.t.

Definition parse_config (config_dict : Value)
  : list LogRecord * result ConfigSchema.t :=
  match from_dict config_dict with
  | (log, Ok config) => (log, Ok config)
  | (log, Raise err) =>
      if is_DeepTypeError err
      then ((log ++ [(CRITICAL, "Error in the configuration file, aborting.");
                     (CRITICAL, exn_str err)])%list,
            Raise (SystemExit 1))
      else (log, Raise err)
  end.

End ParseConfig.

(** How the interpreter ends when the main program finishes with the given
    outcome: [SystemExit] sets the exit status and prints no traceback, any
    other exception is reported as unhandled. *)
Inductive Termination :=
| Exited (status : Z)
| Unhandled (e : exn).

Definition terminate {A} (outcome : result A) : Termination :=
  match outcome with
  | Ok _ => Exited 0
  | Raise (SystemExit code) => Exited code
  | Raise e => Unhandled e
  end.

(** ** The config file loader *)

(** [l.remove(x)]: the list without the first element equal to [x], or
    [None] where Python raises [ValueError] because there is none. *)
Fixpoint list_remove (x : string) (l : list string) : option (list string) :=
  match l with
  | [] => None
  | y :: rest =>
      if decide (y = x) then Some rest
      else match list_remove x rest with
           | Some rest' => Some (y :: rest')
           | None => None
           end
  end.

Module TemporaryDirectory.
(** A [tempfile.TemporaryDirectory]: its path and whether its finalizer
    is still attached. *)
Record t := {
  name : string;
  finalizer_alive : bool;
}.
End TemporaryDirectory.

(** The shared state the loaders act on: the list object bound to
    [sys.path], and what is present on disk (directories and what they
    hold), by its paths. *)
Record World := {
  path_entries : list string;
  directories : gset string;
}.

(** Whether the path [p] is the directory [d] or lies inside it. *)
Definition is_under (d p : string) : bool :=
  String.eqb p d || String.prefix (d +:+ "/") p.

(** [shutil.rmtree(d)]: the directory [d] goes with everything inside
    it. *)
Definition rmtree (d : string) (dirs : gset string) : gset string :=
  filter (fun p => is_under d p = false) dirs.

(** A reference to the list object of [sys.path]; every loader holds the
    same one. *)
Inductive ListRef := the_sys_path.

Module ConfigFileLoader.
(** The attributes of a loader; one is [None] while [__init__] has not
    set it. *)
Record t := {
  config_dir : option TemporaryDirectory.t;
  sys_path : option ListRef;
}.

(** [TemporaryDirectory.cleanup()], as in the [tempfile] module of
    CPython 3.11: it detaches the finalizer and, when the finalizer was
    still attached or the directory exists, removes the directory tree; the
    removal passes over a directory that is missing. *)
Definition cleanup (d : TemporaryDirectory.t) (dirs : gset string)
  : TemporaryDirectory.t * gset string * result unit :=
  let d' := {| TemporaryDirectory.name := TemporaryDirectory.name d;
               TemporaryDirectory.finalizer_alive := false |} in
  if TemporaryDirectory.finalizer_alive d
     || bool_decide (TemporaryDirectory.name d ∈ dirs)
  then (d', rmtree (TemporaryDirectory.name d) dirs, Ok tt)
  else (d', dirs, Ok tt).

(** [__init__]: [tmp] is the outcome of [tempfile.TemporaryDirectory],
    an exception or the path of the directory it created. *)
Definition __init__ (tmp : result string) (w : World) : World * t * result unit :=
  match tmp with
  | Raise e => (w, {| config_dir := None; sys_path := None |}, Raise e)
  | Ok dir_name =>
      ({| path_entries := (path_entries w ++ [dir_name])%list;
          directories := {[dir_name]} ∪ directories w |},
       {| config_dir := Some {| TemporaryDirectory.name := dir_name;
                                TemporaryDirectory.finalizer_alive := true |};
          sys_path := Some the_sys_path |},
       Ok tt)
  end.

(** [__del__] *)
Definition __del__ (self : t) (w : World) : World * t * result unit :=
  match sys_path self, config_dir self with
  | None, _ =>
      (w, self,
       Raise (Exc AttributeError
                "'ConfigFileLoader' object has no attribute 'sys_path'" None))
  | Some _, None =>
      (w, self,
       Raise (Exc AttributeError
                "'ConfigFileLoader' object has no attribute 'config_dir'" None))
  | Some _, Some d =>
      match list_remove (TemporaryDirectory.name d) (path_entries w) with
      | None =>
          (w, self, Raise (Exc ValueError "list.remove(x): x not in list" None))
      | Some entries =>
          let '(d', dirs, outcome) := cleanup d (directories w) in
          ({| path_entries := entries; directories := dirs |},
           {| config_dir := Some d'; sys_path := sys_path self |},
           outcome)
      end
  end.

End ConfigFileLoader.

(** ** Instances for the closed examples *)

(** The closed examples below never reach the [float] constructor; they
    are stated for this instance, which converts no text. *)
Definition example_float (s : string) : result spec_float :=
  Raise (Exc ValueError ("could not convert string to float: " +:+ Str.repr s) None).

(** The override engine over the navigator and the injector modelled from
    the specification. *)
Definition spec_override_config_dict (py_float : string -> result spec_float)
  : Value -> option (list (list string)) -> Value * result Value :=
  override_config_dict py_float spec_extract_nested_type spec_inject_nested_value.

(** The configuration of the end-to-end example: one entity type [user],
    the given relations and sampling flags, every other attribute at its
    declared default. *)
Definition example_entities : gmap string EntitySchema.t :=
  {[ "user" := {| EntitySchema.num_partitions := 1;
                  EntitySchema.featurized := false;
                  EntitySchema.dimension := None |} ]}.

Definition example_relation (lhs rhs : string) : RelationSchema.t :=
  {| RelationSchema.name := "follows";
     RelationSchema.lhs := lhs;
     RelationSchema.rhs := rhs;
     RelationSchema.weight := S754_finite false 4503599627370496 (-52);
     RelationSchema.operator := "none";
     RelationSchema.all_negs := false |}.

Definition example_config (relations : list RelationSchema.t)
    (disable_lhs_negs disable_rhs_negs : bool) : ConfigSchema.t :=
  {| ConfigSchema.entities := example_entities;
     ConfigSchema.relations := relations;
     ConfigSchema.dimension := 100;
     ConfigSchema.init_scale := S754_finite false 4611686018427388 (-62);
     ConfigSchema.max_norm := None;
     ConfigSchema.global_emb := true;
     ConfigSchema.comparator := "cos";
     ConfigSchema.bias := false;
     ConfigSchema.loss_fn := "ranking";
     ConfigSchema.margin := S754_finite false 7205759403792794 (-56);
     ConfigSchema.entity_path := "/e";
     ConfigSchema.edge_paths := ["/p"];
     ConfigSchema.checkpoint_path := "/c";
     ConfigSchema.init_path := None;
     ConfigSchema.checkpoint_preservation_interval := None;
     ConfigSchema.num_epochs := 1;
     ConfigSchema.num_edge_chunks := None;
     ConfigSchema.max_edges_per_chunk := 1000000000;
     ConfigSchema.bucket_order := INSIDE_OUT;
     ConfigSchema.workers := None;
     ConfigSchema.batch_size := 1000;
     ConfigSchema.num_batch_negs := 50;
     ConfigSchema.num_uniform_negs := 50;
     ConfigSchema.disable_lhs_negs := disable_lhs_negs;
     ConfigSchema.disable_rhs_negs := disable_rhs_negs;
     ConfigSchema.lr := S754_finite false 5764607523034235 (-59);
     ConfigSchema.relation_lr := None;
     ConfigSchema.eval_fraction := S754_finite false 7205759403792794 (-57);
     ConfigSchema.eval_num_batch_negs := 1000;
     ConfigSchema.eval_num_uniform_negs := 1000;
     ConfigSchema.background_io := false;
     ConfigSchema.verbose := 0;
     ConfigSchema.hogwild_delay := S754_finite false 4503599627370496 (-51);
     ConfigSchema.dynamic_relations := false;
     ConfigSchema.num_machines := 1;
     ConfigSchema.num_partition_servers := -1;
     ConfigSchema.distributed_init_method := None;
     ConfigSchema.distributed_tree_init_order := true;
     ConfigSchema.num_gpus := 0;
     ConfigSchema.num_groups_for_partition_server := 16;
     ConfigSchema.half_precision := false |}.

(** The attribute validators on the example configurations, whose
    attributes all satisfy them. *)
Definition example_validators (self : ConfigSchema.t) : result unit := Ok tt.

(** A [from_dict] for the closed examples: it rejects a raw configuration
    that is not a mapping with a [DeepTypeError], fails on an empty mapping
    with another error, and otherwise builds the example configuration. *)
Definition example_from_dict (config_dict : Value)
  : list LogRecord * result ConfigSchema.t :=
  match config_dict with
  | VDict [] => ([], Raise (Exc KeyError "'entities'" None))
  | VDict _ =>
      ConfigSchema.new example_validators
        (example_config [example_relation "user" "user"] false false)
  | _ => ([], Raise (Exc DeepTypeError "Not a dict" None))
  end.

(** ** The callers of the engine and of the loader *)

(** The number of occurrences of [c] in [s]. *)
Fixpoint str_count (c : ascii) (s : string) : nat :=
  match s with
  | EmptyString => 0
  | String a rest => (if Ascii.eqb a c then 1 else 0) + str_count c rest
  end.

(** Iterating over a string yields its characters, each a string of length
    one. *)
Fixpoint iterate_str (s : string) : list string :=
  match s with
  | EmptyString => []
  | String a rest => String a EmptyString :: iterate_str rest
  end.

(** [BucketOrder.value] *)
Definition BucketOrder_value (order : BucketOrder) : string :=
  match order with
  | RANDOM => "random"
  | AFFINITY => "affinity"
  | INSIDE_OUT => "inside_out"
  | OUTSIDE_IN => "outside_in"
  end.

(** [BucketOrder(value)]: the member with that value; [Enum] raises
    [ValueError] when there is none. *)
Definition BucketOrder_of_value (value : string) : result BucketOrder :=
  if String.eqb value "random" then Ok RANDOM
  else if String.eqb value "affinity" then Ok AFFINITY
  else if String.eqb value "inside_out" then Ok INSIDE_OUT
  else if String.eqb value "outside_in" then Ok OUTSIDE_IN
  else Raise (Exc ValueError (Str.repr value +:+ " is not a valid BucketOrder") None).

Section Loading.

Variable py_float : string -> result spec_float.
Variable extract_nested_type : PyType -> list string -> result PyType.
Variable inject_nested_value : Value -> list string -> Value -> Value * result unit.
Variable from_dict : Value -> list LogRecord * result ConfigSchema.t.

(** [ConfigFileLoader.load_raw_config].  [imported] is the outcome of
    lines 489 to 493, which depend on the file system and on the code of
    the copied file: the raw configuration its entry point returned, or the
    exception raised by the copy, the import or the call. *)
Definition load_raw_config (imported : result Value)
    (overrides : option (list (list string))) : result Value :=
  match imported with
  | Raise e => Raise e
  | Ok raw_config =>
      (override_config_dict py_float extract_nested_type inject_nested_value
         raw_config overrides).2
  end.

(** [ConfigFileLoader.load_config] *)
Definition load_config (imported : result Value)
    (overrides : option (list (list string)))
  : list LogRecord * result ConfigSchema.t :=
  match load_raw_config imported overrides with
  | Raise e => ([], Raise e)
  | Ok config_dict => parse_config from_dict config_dict
  end.

(** Lines 521 to 524 of [main]: [opt.param], when given, is flattened once
    before it is passed on.  What reaches [override_config_dict] is then an
    iterable of strings, and the second flattening there iterates over
    each string, that is, over its characters. *)
Definition main_overrides (param : option (list (list string)))
  : option (list (list string)) :=
  match param with
  | Some groups => Some (iterate_str <$> concat groups)
  | None => None
  end.

(** Line 526 of [main]: the configuration [main] loads for the parsed
    [-p] arguments. *)
Definition main_load_config (imported : result Value)
    (param : option (list (list string)))
  : list LogRecord * result ConfigSchema.t :=
  load_config imported (main_overrides param).

End Loading.

(** [add_to_sys_path] *)
Definition add_to_sys_path (path : string) (w : World) : World :=
  {| path_entries := (path_entries w ++ [path])%list;
     directories := directories w |}.

(** The calls a client makes on loaders and on the search path. *)
Inductive LoaderCall :=
| CallInit (tmp : result string)
| CallDel (self : ConfigFileLoader.t)
| CallAddToSysPath (path : string).

Definition call_effect (call : LoaderCall) (w : World) : World * result unit :=
  match call with
  | CallInit tmp =>
      let '(w', _, outcome) := ConfigFileLoader.__init__ tmp w in (w', outcome)
  | CallDel self =>
      let '(w', _, outcome) := ConfigFileLoader.__del__ self w in (w', outcome)
  | CallAddToSysPath path => (add_to_sys_path path w, Ok tt)
  end.

(** A client that makes the calls in order and goes on after a failure:
    the final state and the outcome of each call. *)
Fixpoint run_calls (calls : list LoaderCall) (w : World) : World * list (result unit) :=
  match calls with
  | [] => (w, [])
  | call :: rest =>
      let '(w', outcome) := call_effect call w in
      let '(w'', outcomes) := run_calls rest w' in
      (w'', outcome :: outcomes)
  end.

(** The loader that [__init__] sets up for the directory [dir_name]. *)
Definition loader_of (dir_name : string) : ConfigFileLoader.t :=
  {| ConfigFileLoader.config_dir :=
       Some {| TemporaryDirectory.name := dir_name;
               TemporaryDirectory.finalizer_alive := true |};
     ConfigFileLoader.sys_path := Some the_sys_path |}.

(** A navigator for the closed examples that differs from the one of the
    specification on the empty path only. *)
Definition example_navigator (type_ : PyType) (path : list string) : result PyType :=
  match path with
  | [] => Raise (Exc PathError "empty path" None)
  | _ => spec_extract_nested_type type_ path
  end.

(** The configuration [base] with three of its attributes replaced. *)
Definition example_variant (base : ConfigSchema.t) (dynamic_relations : bool)
    (loss_fn : string) (background_io : bool) : ConfigSchema.t :=
  {| ConfigSchema.entities := ConfigSchema.entities base;
     ConfigSchema.relations := ConfigSchema.relations base;
     ConfigSchema.dimension := ConfigSchema.dimension base;
     ConfigSchema.init_scale := ConfigSchema.init_scale base;
     ConfigSchema.max_norm := ConfigSchema.max_norm base;
     ConfigSchema.global_emb := ConfigSchema.global_emb base;
     ConfigSchema.comparator := ConfigSchema.comparator base;
     ConfigSchema.bias := ConfigSchema.bias base;
     ConfigSchema.loss_fn := loss_fn;
     ConfigSchema.margin := ConfigSchema.margin base;
     ConfigSchema.entity_path := ConfigSchema.entity_path base;
     ConfigSchema.edge_paths := ConfigSchema.edge_paths base;
     ConfigSchema.checkpoint_path := ConfigSchema.checkpoint_path base;
     ConfigSchema.init_path := ConfigSchema.init_path base;
     ConfigSchema.checkpoint_preservation_interval := ConfigSchema.checkpoint_preservation_interval base;
     ConfigSchema.num_epochs := ConfigSchema.num_epochs base;
     ConfigSchema.num_edge_chunks := ConfigSchema.num_edge_chunks base;
     ConfigSchema.max_edges_per_chunk := ConfigSchema.max_edges_per_chunk base;
     ConfigSchema.bucket_order := ConfigSchema.bucket_order base;
     ConfigSchema.workers := ConfigSchema.workers base;
     ConfigSchema.batch_size := ConfigSchema.batch_size base;
     ConfigSchema.num_batch_negs := ConfigSchema.num_batch_negs base;
     ConfigSchema.num_uniform_negs := ConfigSchema.num_uniform_negs base;
     ConfigSchema.disable_lhs_negs := ConfigSchema.disable_lhs_negs base;
     ConfigSchema.disable_rhs_negs := ConfigSchema.disable_rhs_negs base;
     ConfigSchema.lr := ConfigSchema.lr base;
     ConfigSchema.relation_lr := ConfigSchema.relation_lr base;
     ConfigSchema.eval_fraction := ConfigSchema.eval_fraction base;
     ConfigSchema.eval_num_batch_negs := ConfigSchema.eval_num_batch_negs base;
     ConfigSchema.eval_num_uniform_negs := ConfigSchema.eval_num_uniform_negs base;
     ConfigSchema.background_io := background_io;
     ConfigSchema.verbose := ConfigSchema.verbose base;
     ConfigSchema.hogwild_delay := ConfigSchema.hogwild_delay base;
     ConfigSchema.dynamic_relations := dynamic_relations;
     ConfigSchema.num_machines := ConfigSchema.num_machines base;
     ConfigSchema.num_partition_servers := ConfigSchema.num_partition_servers base;
     ConfigSchema.distributed_init_method := ConfigSchema.distributed_init_method base;
     ConfigSchema.distributed_tree_init_order := ConfigSchema.distributed_tree_init_order base;
     ConfigSchema.num_gpus := ConfigSchema.num_gpus base;
     ConfigSchema.num_groups_for_partition_server := ConfigSchema.num_groups_for_partition_server base;
     ConfigSchema.half_precision := ConfigSchema.half_precision base |}.

(** * Properties *)

(** ** Text *)

Section StrFacts.

Variable sep : ascii.

Lemma rfind_split_None s :
  Str.rfind_split sep s = None -> Str.contains sep s = false.
Proof.
  induction s as [|a rest IH]; simpl; [done|].
  destruct (Str.rfind_split sep rest) as [[h t]|]; [done|].
  destruct (Ascii.eqb a sep); [done|].
  intros _. by rewrite IH.
Qed.

Lemma rfind_split_Some s head tail :
  Str.rfind_split sep s = Some (head, tail) ->
  s = head +:+ String sep tail /\ Str.contains sep tail = false.
Proof.
  revert head. induction s as [|a rest IH]; intros head; simpl; [done|].
  destruct (Str.rfind_split sep rest) as [[h t]|] eqn:E.
  - intros [= <- <-]. destruct (IH h eq_refl) as [-> Hc]. by split.
  - destruct (Ascii.eqb a sep) eqn:Ea; [|done].
    intros [= <- <-]. apply Ascii.eqb_eq in Ea as ->.
    split; [done|]. by apply rfind_split_None.
Qed.

Lemma rfind_split_contains s :
  Str.contains sep s = true -> is_Some (Str.rfind_split sep s).
Proof.
  induction s as [|a rest IH]; simpl; [done|].
  destruct (Str.rfind_split sep rest) as [[h t]|] eqn:E; [by eexists|].
  apply rfind_split_None in E. rewrite E, orb_false_r.
  intros ->. by eexists.
Qed.

Lemma rfind_split_app head tail :
  Str.contains sep tail = false ->
  Str.rfind_split sep (head +:+ String sep tail) = Some (head, tail).
Proof.
  intros Hc. induction head as [|a rest IH]; simpl.
  - destruct (Str.rfind_split sep tail) as [[h t]|] eqn:E.
    + apply rfind_split_Some in E as [-> _].
      exfalso. revert Hc. clear. induction h as [|b h IH]; simpl.
      * by rewrite Ascii.eqb_refl.
      * destruct (Ascii.eqb b sep); [done|]. simpl. exact IH.
    + by rewrite Ascii.eqb_refl.
  - by rewrite IH.
Qed.

(** [rpartition] finds the separator exactly when it occurs, and then
    its third component is free of it. *)
Lemma rpartition_found s :
  Str.contains sep s = true ->
  exists head tail,
    Str.rpartition sep s = (head, String sep EmptyString, tail)
    /\ s = head +:+ String sep tail
    /\ Str.contains sep tail = false.
Proof.
  intros Hc. destruct (rfind_split_contains s Hc) as [[h t] E].
  exists h, t. unfold Str.rpartition. rewrite E.
  by destruct (rfind_split_Some _ _ _ E).
Qed.

Lemma rpartition_app head tail :
  Str.contains sep tail = false ->
  Str.rpartition sep (head +:+ String sep tail) = (head, String sep EmptyString, tail).
Proof. intros Hc. unfold Str.rpartition. by rewrite rfind_split_app. Qed.

(** [split] cuts at every separator: its pieces are free of the separator
    and joining them gives the text back. *)
Lemma split_nonempty s : Str.split sep s <> [].
Proof.
  destruct s as [|a rest]; simpl; [done|].
  destruct (Ascii.eqb a sep); [done|]. by destruct (Str.split sep rest).
Qed.

Lemma split_pieces s :
  Forall (fun piece => Str.contains sep piece = false) (Str.split sep s).
Proof.
  induction s as [|a rest IH]; simpl.
  - by repeat constructor.
  - destruct (Ascii.eqb a sep) eqn:E.
    + by constructor.
    + destruct (Str.split sep rest) as [|piece pieces]; simpl.
      * repeat constructor. simpl. by rewrite E.
      * inversion IH as [|? ? Hp Hps]; subst. constructor; [|done].
        simpl. by rewrite E, Hp.
Qed.

Lemma join_split s : Str.join sep (Str.split sep s) = s.
Proof.
  induction s as [|a rest IH]; simpl; [done|].
  destruct (Ascii.eqb a sep) eqn:E.
  - apply Ascii.eqb_eq in E as ->.
    pose proof (split_nonempty rest) as Hne.
    destruct (Str.split sep rest) as [|piece pieces]; [done|].
    simpl in *. by rewrite IH.
  - pose proof (split_nonempty rest) as Hne.
    destruct (Str.split sep rest) as [|piece pieces]; [done|].
    destruct pieces as [|piece' pieces]; simpl in *; by rewrite <- IH.
Qed.

End StrFacts.

(** ** Raw dictionaries *)

Lemma dict_get_set_eq key value items :
  dict_get key (dict_set key value items) = Some value.
Proof.
  induction items as [|[k v] rest IH]; simpl.
  - by rewrite String.eqb_refl.
  - destruct (String.eqb k key) eqn:E; simpl; by rewrite E.
Qed.

Lemma dict_get_set_ne key key' value items :
  key <> key' ->
  dict_get key' (dict_set key value items) = dict_get key' items.
Proof.
  intros Hne. induction items as [|[k v] rest IH]; simpl.
  - destruct (String.eqb key key') eqn:E; [|done].
    by apply String.eqb_eq in E.
  - destruct (String.eqb k key) eqn:E; simpl.
    + apply String.eqb_eq in E as ->.
      destruct (String.eqb key key') eqn:E'; [|done].
      by apply String.eqb_eq in E'.
    + by rewrite IH.
Qed.

(** ** The override engine *)

Section OverrideFacts.

Variable py_float : string -> result spec_float.
Variable extract_nested_type : PyType -> list string -> result PyType.
Variable inject_nested_value : Value -> list string -> Value -> Value * result unit.

Local Abbreviation body :=
  (override_body py_float extract_nested_type inject_nested_value).
Local Abbreviation one :=
  (override_one py_float extract_nested_type inject_nested_value).
Local Abbreviation loop :=
  (override_loop py_float extract_nested_type inject_nested_value).

(** The body in terms of the two parts [rpartition] returns. *)
Lemma override_body_parts config_dict override key sep value :
  Str.rpartition "=" override = (key, sep, value) ->
  body config_dict override =
    match extract_nested_type TConfigSchema (Str.split "." key) with
    | Raise e => (config_dict, Raise e)
    | Ok param_type =>
        match coerce py_float param_type value with
        | Raise e => (config_dict, Raise e)
        | Ok value' => inject_nested_value config_dict (Str.split "." key) value'
        end
    end.
Proof. intros H. unfold override_body. by rewrite H. Qed.

(** The numeric test selects [int] and [float] and nothing else. *)
Lemma numeric_test_spec param_type :
  isinstance_type param_type
  && issubclass_int_float param_type
  && negb (issubclass_bool param_type) = true
  <-> param_type = Tint \/ param_type = Tfloat.
Proof.
  split; [|by intros [-> | ->]].
  destruct param_type; simpl; intros H; try discriminate; auto.
Qed.

Lemma coerce_int value :
  coerce py_float Tint value =
    match py_int value with Ok n => Ok (VInt n) | Raise e => Raise e end.
Proof. reflexivity. Qed.

Lemma coerce_float value :
  coerce py_float Tfloat value =
    match py_float value with Ok x => Ok (VFloat x) | Raise e => Raise e end.
Proof. reflexivity. Qed.

Lemma coerce_list element_type value :
  coerce py_float (TList element_type) value
  = Ok (VList (VStr <$> Str.split "," value)).
Proof. reflexivity. Qed.

(** Every type failing both tests leaves the text as it is. *)
Lemma coerce_passthrough param_type value :
  has_origin param_type origin_list = false ->
  param_type <> Tint -> param_type <> Tfloat ->
  coerce py_float param_type value = Ok (VStr value).
Proof.
  intros Hl Hi Hf. unfold coerce. rewrite Hl.
  destruct (isinstance_type param_type && issubclass_int_float param_type
            && negb (issubclass_bool param_type)) eqn:E; [|done].
  apply numeric_test_spec in E as [? | ?]; done.
Qed.

(** The loop runs through a prefix of successful overrides. *)
Lemma override_loop_app config_dict pre post config_dict' :
  loop config_dict pre = (config_dict', Ok tt) ->
  loop config_dict (pre ++ post)%list = loop config_dict' post.
Proof.
  revert config_dict. induction pre as [|o pre IH]; intros config_dict; simpl.
  - by intros [= ->].
  - simpl.
    destruct (override_one _ _ _ config_dict o) as [c [[]|e]]; [|done].
    apply IH.
Qed.

(** The handler wraps every [Exception] the body raises. *)
Lemma override_one_wraps config_dict override config_dict' err :
  body config_dict override = (config_dict', Raise err) ->
  is_Exception err = true ->
  one config_dict override =
    (config_dict',
     Raise (Exc RuntimeError ("Can't parse override: " +:+ override) (Some err))).
Proof.
  intros Hb He. unfold override_one. by rewrite Hb, He.
Qed.

End OverrideFacts.

(** *** Closed runs of the engine over the navigator and injector of the
    specification *)

Lemma override_dimension_400 py_float items :
  spec_override_config_dict py_float (VDict items) (Some [["dimension=400"]])
  = (VDict (dict_set "dimension" (VInt 400) items),
     Ok (VDict (dict_set "dimension" (VInt 400) items))).
Proof. reflexivity. Qed.

Lemma override_edge_paths py_float items :
  spec_override_config_dict py_float (VDict items) (Some [["edge_paths=/a,/b,/c"]])
  = (VDict (dict_set "edge_paths" (VList [VStr "/a"; VStr "/b"; VStr "/c"]) items),
     Ok (VDict (dict_set "edge_paths" (VList [VStr "/a"; VStr "/b"; VStr "/c"]) items))).
Proof. reflexivity. Qed.





(** *** Splitting an override *)

(** C1, amended: an override containing [=] is split at its last [=].  The
    value part is the text after that [=] and contains no [=]; the path
    part is all the text before it; no other split has an [=]-free value;
    and these two parts are what the navigator, the coercion and the
    injector receive. *)
Theorem override_splits_at_last_equals
    (py_float : string -> result spec_float)
    (extract_nested_type : PyType -> list string -> result PyType)
    (inject_nested_value : Value -> list string -> Value -> Value * result unit)
    (config_dict : Value) (override : string) :
  Str.contains "=" override = true ->
  exists key value,
    override = key +:+ "=" +:+ value
    /\ Str.contains "=" value = false
    /\ Str.rpartition "=" override = (key, "=", value)
    /\ (forall k v, override = k +:+ "=" +:+ v -> Str.contains "=" v = false ->
        k = key /\ v = value)
    /\ override_body py_float extract_nested_type inject_nested_value
         config_dict override =
       match extract_nested_type TConfigSchema (Str.split "." key) with
       | Raise e => (config_dict, Raise e)
       | Ok param_type =>
           match coerce py_float param_type value with
           | Raise e => (config_dict, Raise e)
           | Ok value' => inject_nested_value config_dict (Str.split "." key) value'
           end
       end.
Proof.
  intros Hc.
  destruct (rpartition_found "=" override Hc) as (key & value & Hr & Hs & Hv).
  exists key, value.
  split; [done|]. split; [done|]. split; [done|]. split.
  - intros k v Hkv Hcv. pose proof (rpartition_app "=" k v Hcv) as Hr'.
    change (k +:+ String "=" v) with (k +:+ "=" +:+ v) in Hr'.
    rewrite <- Hkv, Hr in Hr'. by inversion Hr'.
  - eapply override_body_parts. exact Hr.
Qed.

Lemma override_splits_at_last_equals_witness :
  Str.contains "=" "checkpoint_path=/data/model" = true
  /\ exists key value,
      "checkpoint_path=/data/model" = key +:+ "=" +:+ value
      /\ Str.contains "=" value = false
      /\ Str.rpartition "=" "checkpoint_path=/data/model" = (key, "=", value)
      /\ (forall k v, "checkpoint_path=/data/model" = k +:+ "=" +:+ v ->
          Str.contains "=" v = false -> k = key /\ v = value)
      /\ override_body example_float spec_extract_nested_type spec_inject_nested_value
           (VDict []) "checkpoint_path=/data/model" =
         match spec_extract_nested_type TConfigSchema (Str.split "." key) with
         | Raise e => (VDict [], Raise e)
         | Ok param_type =>
             match coerce example_float param_type value with
             | Raise e => (VDict [], Raise e)
             | Ok value' => spec_inject_nested_value (VDict []) (Str.split "." key) value'
             end
         end.
Proof.
  split; [reflexivity|].
  apply (override_splits_at_last_equals example_float spec_extract_nested_type
           spec_inject_nested_value (VDict []) "checkpoint_path=/data/model").
  reflexivity.
Defined.

(** A value that itself contains [=] is not carried through intact: the
    split takes its text up to its last [=] into the path part. *)
Lemma value_with_equals_is_cut :
  Str.rpartition "=" "entity_path=a=b" = ("entity_path=a", "=", "b")
  /\ Str.rpartition "=" "entity_path=a=b" <> ("entity_path", "=", "a=b").
Proof. split; [reflexivity | discriminate]. Qed.

(** *** Coercion of the value *)

(** C2: when the path of an override resolves to [int] or to [float], the
    value text is converted by that class before it is injected (and the
    conversion error is the outcome when it fails); when it resolves to
    [bool], the text is injected unconverted.  In particular
    [dimension=400], applied to any raw configuration, puts the integer 400
    at key [dimension], not the text. *)
Theorem override_numeric_coercion
    (py_float : string -> result spec_float)
    (extract_nested_type : PyType -> list string -> result PyType)
    (inject_nested_value : Value -> list string -> Value -> Value * result unit)
    (config_dict : Value) (override key sep value : string) (param_type : PyType) :
  Str.rpartition "=" override = (key, sep, value) ->
  extract_nested_type TConfigSchema (Str.split "." key) = Ok param_type ->
  (param_type = Tint ->
     override_body py_float extract_nested_type inject_nested_value
       config_dict override =
     match py_int value with
     | Ok n => inject_nested_value config_dict (Str.split "." key) (VInt n)
     | Raise e => (config_dict, Raise e)
     end)
  /\ (param_type = Tfloat ->
     override_body py_float extract_nested_type inject_nested_value
       config_dict override =
     match py_float value with
     | Ok x => inject_nested_value config_dict (Str.split "." key) (VFloat x)
     | Raise e => (config_dict, Raise e)
     end)
  /\ (param_type = Tbool ->
     override_body py_float extract_nested_type inject_nested_value
       config_dict override =
     inject_nested_value config_dict (Str.split "." key) (VStr value))
  /\ (forall items,
        exists items',
          spec_override_config_dict py_float (VDict items) (Some [["dimension=400"]])
          = (VDict items', Ok (VDict items'))
          /\ dict_get "dimension" items' = Some (VInt 400)
          /\ dict_get "dimension" items' <> Some (VStr "400")).
Proof.
  intros Hr Hn.
  pose proof (override_body_parts py_float extract_nested_type inject_nested_value
                config_dict override key sep value Hr) as Hb.
  rewrite Hn in Hb.
  split; [|split; [|split]].
  - intros ->. rewrite Hb, coerce_int. by destruct (py_int value).
  - intros ->. rewrite Hb, coerce_float. by destruct (py_float value).
  - intros ->. by rewrite Hb.
  - intros items. eexists. split; [apply override_dimension_400|].
    rewrite dict_get_set_eq. by split.
Qed.

Lemma override_numeric_coercion_witness :
  Str.rpartition "=" "dimension=400" = ("dimension", "=", "400")
  /\ spec_extract_nested_type TConfigSchema (Str.split "." "dimension") = Ok Tint
  /\ override_body example_float spec_extract_nested_type spec_inject_nested_value
       (VDict []) "dimension=400"
     = (VDict [("dimension", VInt 400)], Ok tt).
Proof.
  split; [reflexivity|]. split; [reflexivity|].
  destruct (override_numeric_coercion example_float spec_extract_nested_type
              spec_inject_nested_value (VDict []) "dimension=400"
              "dimension" "=" "400" Tint eq_refl eq_refl) as [Hint _].
  exact (Hint eq_refl).
Defined.

(** C3: when the path of an override resolves to a list type, the value
    text is split on [,] and the list of the pieces, as strings, is what is
    injected; the pieces contain no [,] and joined by [,] they give the
    value back.  In particular [edge_paths=/a,/b,/c], applied to any raw
    configuration, puts the three strings at key [edge_paths]. *)
Theorem override_list_coercion
    (py_float : string -> result spec_float)
    (extract_nested_type : PyType -> list string -> result PyType)
    (inject_nested_value : Value -> list string -> Value -> Value * result unit)
    (config_dict : Value) (override key sep value : string) (element_type : PyType) :
  Str.rpartition "=" override = (key, sep, value) ->
  extract_nested_type TConfigSchema (Str.split "." key) = Ok (TList element_type) ->
  override_body py_float extract_nested_type inject_nested_value
    config_dict override =
  inject_nested_value config_dict (Str.split "." key)
    (VList (VStr <$> Str.split "," value))
  /\ Str.join "," (Str.split "," value) = value
  /\ Forall (fun piece => Str.contains "," piece = false) (Str.split "," value)
  /\ (forall items,
        exists items',
          spec_override_config_dict py_float (VDict items)
            (Some [["edge_paths=/a,/b,/c"]])
          = (VDict items', Ok (VDict items'))
          /\ dict_get "edge_paths" items'
             = Some (VList [VStr "/a"; VStr "/b"; VStr "/c"])).
Proof.
  intros Hr Hn. split; [|split; [|split]].
  - rewrite (override_body_parts _ _ _ _ _ _ _ _ Hr), Hn. by rewrite coerce_list.
  - apply join_split.
  - apply split_pieces.
  - intros items. eexists. split; [apply override_edge_paths|].
    by rewrite dict_get_set_eq.
Qed.

Lemma override_list_coercion_witness :
  Str.rpartition "=" "edge_paths=/a,/b,/c" = ("edge_paths", "=", "/a,/b,/c")
  /\ spec_extract_nested_type TConfigSchema (Str.split "." "edge_paths")
     = Ok (TList Tstr)
  /\ override_body example_float spec_extract_nested_type spec_inject_nested_value
       (VDict []) "edge_paths=/a,/b,/c"
     = (VDict [("edge_paths", VList [VStr "/a"; VStr "/b"; VStr "/c"])], Ok tt).
Proof.
  split; [reflexivity|]. split; [reflexivity|].
  exact (proj1 (override_list_coercion example_float spec_extract_nested_type
                  spec_inject_nested_value (VDict []) "edge_paths=/a,/b,/c"
                  "edge_paths" "=" "/a,/b,/c" Tstr eq_refl eq_refl)).
Defined.




(** *** Failures *)

(** C4: when the loop reaches an override and the navigator fails on its
    path, or the coercion of its value fails, or the injector fails, with
    some [Exception], then [override_config_dict] raises one [RuntimeError]
    whose message ends with the override string verbatim and whose cause is
    that exception. *)
Theorem override_failure_is_wrapped
    (py_float : string -> result spec_float)
    (extract_nested_type : PyType -> list string -> result PyType)
    (inject_nested_value : Value -> list string -> Value -> Value * result unit)
    (config_dict reached : Value) (overrides : list (list string))
    (pre post : list string) (override key sep value : string) (err : exn) :
  concat overrides = (pre ++ override :: post)%list ->
  override_loop py_float extract_nested_type inject_nested_value config_dict pre
  = (reached, Ok tt) ->
  Str.rpartition "=" override = (key, sep, value) ->
  is_Exception err = true ->
  (extract_nested_type TConfigSchema (Str.split "." key) = Raise err
   \/ (exists param_type,
         extract_nested_type TConfigSchema (Str.split "." key) = Ok param_type
         /\ coerce py_float param_type value = Raise err)
   \/ (exists param_type value' after,
         extract_nested_type TConfigSchema (Str.split "." key) = Ok param_type
         /\ coerce py_float param_type value = Ok value'
         /\ inject_nested_value reached (Str.split "." key) value'
            = (after, Raise err))) ->
  exists after,
    override_config_dict py_float extract_nested_type inject_nested_value
      config_dict (Some overrides)
    = (after,
       Raise (Exc RuntimeError ("Can't parse override: " +:+ override) (Some err))).
Proof.
  intros Hflat Hpre Hr He Hfail.
  assert (exists after,
             override_body py_float extract_nested_type inject_nested_value
               reached override = (after, Raise err)) as [after Hb].
  { rewrite (override_body_parts _ _ _ _ _ _ _ _ Hr).
    destruct Hfail as [Hn | [(t & Hn & Hc) | (t & v & a & Hn & Hc & Hi)]].
    - rewrite Hn. by eexists.
    - rewrite Hn, Hc. by eexists.
    - rewrite Hn, Hc, Hi. by eexists. }
  exists after. unfold override_config_dict. rewrite Hflat.
  rewrite (override_loop_app _ _ _ _ _ _ _ Hpre). simpl.
  by rewrite (override_one_wraps _ _ _ _ _ _ _ Hb He).
Qed.

Lemma override_failure_is_wrapped_witness :
  concat [["dimension=400"]; ["dimension=abc"; "comparator=dot"]]
  = (["dimension=400"] ++ "dimension=abc" :: ["comparator=dot"])%list
  /\ override_loop example_float spec_extract_nested_type spec_inject_nested_value
       (VDict []) ["dimension=400"]
     = (VDict [("dimension", VInt 400)], Ok tt)
  /\ Str.rpartition "=" "dimension=abc" = ("dimension", "=", "abc")
  /\ is_Exception
       (Exc ValueError "invalid literal for int() with base 10: 'abc'" None) = true
  /\ spec_extract_nested_type TConfigSchema (Str.split "." "dimension") = Ok Tint
  /\ coerce example_float Tint "abc"
     = Raise (Exc ValueError "invalid literal for int() with base 10: 'abc'" None)
  /\ exists after,
      spec_override_config_dict example_float (VDict [])
        (Some [["dimension=400"]; ["dimension=abc"; "comparator=dot"]])
      = (after,
         Raise (Exc RuntimeError "Can't parse override: dimension=abc"
                  (Some (Exc ValueError
                           "invalid literal for int() with base 10: 'abc'" None)))).
Proof.
  split; [reflexivity|]. split; [reflexivity|]. split; [reflexivity|].
  split; [reflexivity|]. split; [reflexivity|]. split; [reflexivity|].
  apply (override_failure_is_wrapped example_float spec_extract_nested_type
           spec_inject_nested_value (VDict []) (VDict [("dimension", VInt 400)])
           [["dimension=400"]; ["dimension=abc"; "comparator=dot"]]
           ["dimension=400"] ["comparator=dot"]
           "dimension=abc" "dimension" "=" "abc"
           (Exc ValueError "invalid literal for int() with base 10: 'abc'" None)
           eq_refl eq_refl eq_refl eq_refl).
  right. left. exists Tint. split; reflexivity.
Defined.

(** An exception that is not an [Exception] is not caught by the handler
    and leaves [override_config_dict] as it is. *)
Lemma override_non_exception_propagates
    (py_float : string -> result spec_float)
    (extract_nested_type : PyType -> list string -> result PyType)
    (inject_nested_value : Value -> list string -> Value -> Value * result unit)
    (config_dict after : Value) (override : string) (err : exn) :
  override_body py_float extract_nested_type inject_nested_value config_dict override
  = (after, Raise err) ->
  is_Exception err = false ->
  override_config_dict py_float extract_nested_type inject_nested_value
    config_dict (Some [[override]])
  = (after, Raise err).
Proof.
  intros Hb He. unfold override_config_dict. simpl.
  unfold override_one. by rewrite Hb, He.
Qed.

(** ** Cross-field validation *)

Section ValidationFacts.

Import ConfigSchema.

(** A relation whose two entity types are keys of the entities mapping. *)
Local Abbreviation known entities rel :=
  (RelationSchema.lhs rel ∈ dom entities /\ RelationSchema.rhs rel ∈ dom entities).

Lemma check_relations_Ok entities rel_id relations :
  check_relations entities rel_id relations = Ok tt ->
  forall rel, rel ∈ relations -> known entities rel.
Proof.
  revert rel_id. induction relations as [|r rest IH]; intros rel_id; simpl.
  - intros _ rel Hin. by apply elem_of_nil in Hin.
  - destruct (decide (entities !! RelationSchema.lhs r = None)) as [|Hl]; [done|].
    destruct (decide (entities !! RelationSchema.rhs r = None)) as [|Hr]; [done|].
    intros Hrest rel [-> | Hin]%elem_of_cons.
    + split; by apply elem_of_dom, not_eq_None_Some.
    + by eapply IH.
Qed.

(** The loop stops at the first relation with an unknown entity type and
    names it, its index and the unknown type. *)
Lemma check_relations_first_unknown entities rel_id relations :
  (exists rel, rel ∈ relations /\ ~ known entities rel) ->
  exists (j : nat) (rel : RelationSchema.t),
    relations !! j = Some rel
    /\ ~ known entities rel
    /\ (forall k r, k < j -> relations !! k = Some r -> known entities r)
    /\ check_relations entities rel_id relations =
       Raise (Exc ValueError
                (if decide (entities !! RelationSchema.lhs rel = None)
                 then "Relation type " +:+ RelationSchema.name rel
                      +:+ " (#" +:+ format_d (rel_id + j)
                      +:+ ") has an unknown left-hand side entity type "
                      +:+ RelationSchema.lhs rel
                 else "Relation type " +:+ RelationSchema.name rel
                      +:+ " (#" +:+ format_d (rel_id + j)
                      +:+ ") has an unknown right-hand side entity type "
                      +:+ RelationSchema.rhs rel)
                None).
Proof.
  revert rel_id. induction relations as [|r rest IH]; intros rel_id (rel & Hin & Hbad).
  - by apply elem_of_nil in Hin.
  - destruct (decide (entities !! RelationSchema.lhs r = None)) as [Hl|Hl].
    { exists 0, r. split; [done|]. split.
      - intros [Hk _]. apply elem_of_dom in Hk as [? Hk]. congruence.
      - split; [intros; lia|].
        simpl. rewrite Nat.add_0_r. by rewrite !decide_True by done. }
    destruct (decide (entities !! RelationSchema.rhs r = None)) as [Hr|Hr].
    { exists 0, r. split; [done|]. split.
      - intros [_ Hk]. apply elem_of_dom in Hk as [? Hk]. congruence.
      - split; [intros; lia|].
        simpl. rewrite Nat.add_0_r.
        rewrite !(decide_False (P := entities !! RelationSchema.lhs r = None)) by done.
        by rewrite decide_True by done. }
    assert (known entities r) as Hknown.
    { split; by apply elem_of_dom, not_eq_None_Some. }
    apply elem_of_cons in Hin as [-> | Hin]; [done|].
    destruct (IH (S rel_id)) as (j & rel' & Hj & Hbad' & Hbefore & Hraise).
    { by exists rel. }
    exists (S j), rel'. split; [done|]. split; [done|]. split.
    + intros [|k] r' Hk; simpl.
      * by intros [= <-].
      * apply Hbefore. lia.
    + simpl. rewrite decide_False by done. rewrite decide_False by done.
      rewrite Hraise. by rewrite Nat.add_succ_r.
Qed.

Lemma post_init_Ok self log :
  __attrs_post_init__ self = (log, Ok tt) ->
  check_relations (entities self) 0 (relations self) = Ok tt
  /\ (disable_lhs_negs self && disable_rhs_negs self = false).
Proof.
  unfold __attrs_post_init__.
  destruct (check_relations _ _ _) as [[]|]; [|done].
  destruct (dynamic_relations self && _); [done|].
  destruct (disable_lhs_negs self && disable_rhs_negs self); [done|].
  by intros _.
Qed.

Lemma new_Ok run_validators self log config :
  new run_validators self = (log, Ok config) ->
  config = self /\ __attrs_post_init__ self = (log, Ok tt).
Proof.
  unfold new. destruct (run_validators self); [|done].
  destruct (__attrs_post_init__ self) as [l [[]|e]]; [|done].
  by intros [= <- <-].
Qed.

End ValidationFacts.

(** C5: a configuration that [ConfigSchema] accepts has, for each of its
    relations, both entity types among the keys of its entities mapping.
    A configuration with a relation whose left or right entity type is not
    such a key is never accepted, and [__attrs_post_init__] raises a
    [ValueError] naming the first such relation, its index and the unknown
    entity type. *)
Theorem validated_relations_reference_entities
    (run_validators : ConfigSchema.t -> result unit) (self : ConfigSchema.t) :
  (forall log config,
      ConfigSchema.new run_validators self = (log, Ok config) ->
      forall rel, rel ∈ ConfigSchema.relations config ->
        RelationSchema.lhs rel ∈ dom (ConfigSchema.entities config)
        /\ RelationSchema.rhs rel ∈ dom (ConfigSchema.entities config))
  /\ ((exists rel, rel ∈ ConfigSchema.relations self
                   /\ ~ (RelationSchema.lhs rel ∈ dom (ConfigSchema.entities self)
                         /\ RelationSchema.rhs rel ∈ dom (ConfigSchema.entities self))) ->
      (forall log config, ConfigSchema.new run_validators self <> (log, Ok config))
      /\ exists (j : nat) (rel : RelationSchema.t),
          ConfigSchema.relations self !! j = Some rel
          /\ ~ (RelationSchema.lhs rel ∈ dom (ConfigSchema.entities self)
                /\ RelationSchema.rhs rel ∈ dom (ConfigSchema.entities self))
          /\ (forall k r, k < j -> ConfigSchema.relations self !! k = Some r ->
                RelationSchema.lhs r ∈ dom (ConfigSchema.entities self)
                /\ RelationSchema.rhs r ∈ dom (ConfigSchema.entities self))
          /\ ConfigSchema.__attrs_post_init__ self =
             ([], Raise (Exc ValueError
                  (if decide (ConfigSchema.entities self !! RelationSchema.lhs rel = None)
                   then "Relation type " +:+ RelationSchema.name rel
                        +:+ " (#" +:+ format_d j
                        +:+ ") has an unknown left-hand side entity type "
                        +:+ RelationSchema.lhs rel
                   else "Relation type " +:+ RelationSchema.name rel
                        +:+ " (#" +:+ format_d j
                        +:+ ") has an unknown right-hand side entity type "
                        +:+ RelationSchema.rhs rel)
                  None))).
Proof.
  split.
  - intros log config [-> Hpost]%new_Ok.
    apply post_init_Ok in Hpost as [Hrels _].
    by apply (check_relations_Ok _ _ _ Hrels).
  - intros Hbad.
    destruct (check_relations_first_unknown (ConfigSchema.entities self) 0
                (ConfigSchema.relations self) Hbad)
      as (j & rel & Hj & Hrel & Hbefore & Hraise).
    split.
    + intros log config [-> Hpost]%new_Ok.
      apply post_init_Ok in Hpost as [Hrels _]. congruence.
    + exists j, rel. split; [done|]. split; [done|]. split; [done|].
      unfold ConfigSchema.__attrs_post_init__. by rewrite Hraise.
Qed.

Lemma validated_relations_reference_entities_witness :
  (ConfigSchema.new example_validators
     (example_config [example_relation "user" "user"] false false)
   = ([], Ok (example_config [example_relation "user" "user"] false false))
   /\ forall rel,
       rel ∈ [example_relation "user" "user"] ->
       RelationSchema.lhs rel ∈ dom example_entities
       /\ RelationSchema.rhs rel ∈ dom example_entities)
  /\ (example_relation "user" "item"
        ∈ [example_relation "user" "user"; example_relation "user" "item"]
      /\ ~ ("user" ∈ dom example_entities /\ "item" ∈ dom example_entities)
      /\ (forall log config,
            ConfigSchema.new example_validators
              (example_config
                 [example_relation "user" "user"; example_relation "user" "item"]
                 false false)
            <> (log, Ok config))).
Proof.
  split.
  - split; [reflexivity|].
    apply (proj1 (validated_relations_reference_entities example_validators
                    (example_config [example_relation "user" "user"] false false))
             [] _ eq_refl).
  - assert (~ ("user" ∈ dom example_entities /\ "item" ∈ dom example_entities)) as Hno.
    { intros [_ H]. apply elem_of_dom in H as [x H]. vm_compute in H. discriminate. }
    split; [apply list_elem_of_further, list_elem_of_here|].
    split; [exact Hno|].
    apply (proj2 (validated_relations_reference_entities example_validators
                    (example_config
                       [example_relation "user" "user"; example_relation "user" "item"]
                       false false))).
    exists (example_relation "user" "item").
    split; [apply list_elem_of_further, list_elem_of_here | exact Hno].
Defined.

(** The diagnostic of the example with the unknown right-hand side [item]. *)
Lemma unknown_entity_diagnostic :
  ConfigSchema.__attrs_post_init__
    (example_config [example_relation "user" "user"; example_relation "user" "item"]
       false false)
  = ([], Raise (Exc ValueError
                  "Relation type follows (#1) has an unknown right-hand side entity type item"
                  None)).
Proof. vm_compute. reflexivity. Qed.

(** C6: a configuration with both [disable_lhs_negs] and
    [disable_rhs_negs] set makes [__attrs_post_init__] raise, so that
    [ConfigSchema] never accepts it (when the earlier checks pass, the
    error is the one about negative sampling); hence no accepted
    configuration has both flags set. *)
Theorem both_negs_disabled_rejected
    (run_validators : ConfigSchema.t -> result unit) (self : ConfigSchema.t) :
  (ConfigSchema.disable_lhs_negs self = true ->
   ConfigSchema.disable_rhs_negs self = true ->
   (exists log e, ConfigSchema.__attrs_post_init__ self = (log, Raise e))
   /\ (forall log config, ConfigSchema.new run_validators self <> (log, Ok config))
   /\ (ConfigSchema.check_relations (ConfigSchema.entities self) 0
         (ConfigSchema.relations self) = Ok tt ->
       ConfigSchema.dynamic_relations self
       && negb (length (ConfigSchema.relations self) =? 1)%nat = false ->
       exists log,
         ConfigSchema.__attrs_post_init__ self
         = (log, Raise (Exc ValueError
                          "Cannot disable negative sampling on both sides." None))))
  /\ (forall log config,
        ConfigSchema.new run_validators self = (log, Ok config) ->
        ~ (ConfigSchema.disable_lhs_negs config = true
           /\ ConfigSchema.disable_rhs_negs config = true)).
Proof.
  split.
  - intros Hl Hr.
    assert (forall log, ConfigSchema.__attrs_post_init__ self <> (log, Ok tt)) as Hno.
    { intros log [_ Hflags]%post_init_Ok. by rewrite Hl, Hr in Hflags. }
    split; [|split].
    + destruct (ConfigSchema.__attrs_post_init__ self) as [log [[]|e]] eqn:E.
      * by destruct (Hno log).
      * by exists log, e.
    + intros log config [-> Hpost]%new_Ok. by apply (Hno log).
    + intros Hrels Hdyn. unfold ConfigSchema.__attrs_post_init__.
      rewrite Hrels, Hdyn, Hl, Hr. simpl. by eexists.
  - intros log config [-> Hpost]%new_Ok [Hl Hr].
    apply post_init_Ok in Hpost as [_ Hflags]. by rewrite Hl, Hr in Hflags.
Qed.

Lemma both_negs_disabled_rejected_witness :
  ConfigSchema.disable_lhs_negs
    (example_config [example_relation "user" "user"] true true) = true
  /\ ConfigSchema.disable_rhs_negs
       (example_config [example_relation "user" "user"] true true) = true
  /\ ConfigSchema.__attrs_post_init__
       (example_config [example_relation "user" "user"] true true)
     = ([], Raise (Exc ValueError
                     "Cannot disable negative sampling on both sides." None))
  /\ forall log config,
      ConfigSchema.new example_validators
        (example_config [example_relation "user" "user"] true true)
      <> (log, Ok config).
Proof.
  split; [reflexivity|]. split; [reflexivity|]. split; [vm_compute; reflexivity|].
  apply (proj1 (both_negs_disabled_rejected example_validators
                  (example_config [example_relation "user" "user"] true true))
           eq_refl eq_refl).
Defined.

(** ** [parse_config] *)

(** C7: when [from_dict] raises a [DeepTypeError], [parse_config] logs two
    critical records, the second being the text of the error, and raises
    [SystemExit(1)], on which the interpreter exits with the non-zero
    status 1 instead of reporting an unhandled exception.  Any other
    exception leaves [parse_config] as it is, with nothing logged, and,
    unless it is a [SystemExit] itself, ends the program as unhandled. *)
Theorem parse_config_validation_failure_exits
    (from_dict : Value -> list LogRecord * result ConfigSchema.t)
    (config_dict : Value) (log : list LogRecord) (err : exn) :
  from_dict config_dict = (log, Raise err) ->
  (is_DeepTypeError err = true ->
     parse_config from_dict config_dict
     = ((log ++ [(CRITICAL, "Error in the configuration file, aborting.");
                 (CRITICAL, exn_str err)])%list,
        Raise (SystemExit 1))
     /\ terminate (parse_config from_dict config_dict).2 = Exited 1
     /\ (1 <> 0)%Z)
  /\ (is_DeepTypeError err = false ->
     parse_config from_dict config_dict = (log, Raise err)
     /\ ((forall code, err <> SystemExit code) ->
         terminate (parse_config from_dict config_dict).2 = Unhandled err)).
Proof.
  intros Hfd. unfold parse_config. rewrite Hfd. split; intros ->.
  - by repeat split.
  - split; [done|]. intros Hne. simpl. destruct err; [done|]. by destruct (Hne code).
Qed.

Lemma parse_config_validation_failure_exits_witness :
  (example_from_dict (VStr "config")
   = ([], Raise (Exc DeepTypeError "Not a dict" None))
   /\ parse_config example_from_dict (VStr "config")
      = ([(CRITICAL, "Error in the configuration file, aborting.");
          (CRITICAL, "Not a dict")],
         Raise (SystemExit 1)))
  /\ (example_from_dict (VDict [])
      = ([], Raise (Exc KeyError "'entities'" None))
      /\ parse_config example_from_dict (VDict [])
         = ([], Raise (Exc KeyError "'entities'" None))).
Proof.
  split; (split; [reflexivity|]).
  - exact (proj1 (proj1 (parse_config_validation_failure_exits example_from_dict
                           (VStr "config") []
                           (Exc DeepTypeError "Not a dict" None) eq_refl) eq_refl)).
  - exact (proj1 (proj2 (parse_config_validation_failure_exits example_from_dict
                           (VDict []) []
                           (Exc KeyError "'entities'" None) eq_refl) eq_refl)).
Defined.

(** A configuration that [from_dict] accepts is returned as it is. *)
Lemma parse_config_accepts
    (from_dict : Value -> list LogRecord * result ConfigSchema.t)
    (config_dict : Value) (log : list LogRecord) (config : ConfigSchema.t) :
  from_dict config_dict = (log, Ok config) ->
  parse_config from_dict config_dict = (log, Ok config).
Proof. intros H. unfold parse_config. by rewrite H. Qed.

(** ** The module search path *)

Lemma list_remove_None x l : list_remove x l = None <-> x ∉ l.
Proof.
  induction l as [|y rest IH]; simpl.
  - split; [intros _; apply not_elem_of_nil | done].
  - rewrite not_elem_of_cons. destruct (decide (y = x)) as [->|Hne].
    + split; [done | by intros [? _]].
    + destruct (list_remove x rest); split; try done.
      * intros [_ H]. by apply IH in H.
      * intros _. split; [done | by apply IH].
Qed.

(** [remove] drops the first occurrence and nothing else. *)
Lemma list_remove_Some x l l' :
  list_remove x l = Some l' <->
  exists l1 l2, l = (l1 ++ x :: l2)%list /\ (x ∉ l1) /\ l' = (l1 ++ l2)%list.
Proof.
  revert l'. induction l as [|y rest IH]; intros l'; simpl.
  - split; [done|]. intros (l1 & l2 & H & _). by destruct l1.
  - destruct (decide (y = x)) as [->|Hne].
    + split.
      * intros [= <-]. exists [], rest. split; [done|]. split; [apply not_elem_of_nil|done].
      * intros ([|z l1] & l2 & H & Hnot & ->); simpl in *.
        -- by injection H as ->.
        -- injection H as -> _. by apply not_elem_of_cons in Hnot as [? _].
    + destruct (list_remove x rest) as [rest'|] eqn:E.
      * split.
        -- intros [= <-]. destruct (proj1 (IH rest') eq_refl) as (l1 & l2 & -> & Hnot & ->).
           exists (y :: l1), l2. split; [done|]. split; [|done].
           apply not_elem_of_cons. split; [congruence | done].
        -- intros ([|z l1] & l2 & H & Hnot & ->); simpl in *.
           ++ injection H as -> _. done.
           ++ injection H as <- ->. apply not_elem_of_cons in Hnot as [_ Hnot].
              f_equal. symmetry. assert (Some rest' = Some (l1 ++ l2)%list) as [= ->]; [|done].
              apply IH. by exists l1, l2.
      * split; [done|]. intros ([|z l1] & l2 & H & Hnot & ->); simpl in *.
        -- injection H as -> _. done.
        -- injection H as <- ->. apply not_elem_of_cons in Hnot as [_ Hnot].
           assert (None = Some (l1 ++ l2)%list); [|done].
           apply IH. by exists l1, l2.
  Qed.

Lemma list_remove_is_Some x l : x ∈ l -> is_Some (list_remove x l).
Proof.
  intros Hin. destruct (list_remove x l) eqn:E; [by eexists|].
  by apply list_remove_None in E.
Qed.

Lemma list_remove_app_fresh x l1 l2 :
  x ∉ l1 -> list_remove x (l1 ++ x :: l2) = Some (l1 ++ l2)%list.
Proof. intros H. apply list_remove_Some. by exists l1, l2. Qed.

(** The entries other than [x], in order, are untouched by [remove]. *)
Lemma list_remove_others x l l' :
  list_remove x l = Some l' ->
  filter (fun y => y <> x) l' = filter (fun y => y <> x) l
  /\ length l = S (length l').
Proof.
  intros (l1 & l2 & -> & _ & ->)%list_remove_Some. split.
  - rewrite !filter_app, filter_cons_False; [done|]. by intros H.
  - rewrite !length_app. simpl. lia.
Qed.

(** ** The loader *)

Section LoaderFacts.

Import ConfigFileLoader.

Lemma init_Ok dir_name w :
  __init__ (Ok dir_name) w
  = ({| path_entries := (path_entries w ++ [dir_name])%list;
        directories := {[dir_name]} ∪ directories w |},
     {| config_dir := Some {| TemporaryDirectory.name := dir_name;
                              TemporaryDirectory.finalizer_alive := true |};
        sys_path := Some the_sys_path |},
     Ok tt).
Proof. reflexivity. Qed.

Lemma is_under_refl d : is_under d d = true.
Proof. unfold is_under. by rewrite String.eqb_refl. Qed.

Lemma elem_of_rmtree d p (dirs : gset string) :
  p ∈ rmtree d dirs <-> is_under d p = false /\ p ∈ dirs.
Proof. unfold rmtree. by rewrite elem_of_filter. Qed.

(** The cleanup always succeeds and leaves the object detached. *)
Lemma cleanup_result d dirs :
  cleanup d dirs
  = ({| TemporaryDirectory.name := TemporaryDirectory.name d;
        TemporaryDirectory.finalizer_alive := false |},
     (cleanup d dirs).1.2, Ok tt).
Proof.
  unfold cleanup.
  by destruct (TemporaryDirectory.finalizer_alive d
               || bool_decide (TemporaryDirectory.name d ∈ dirs)).
Qed.

(** A directory that exists is removed with all it contains, whatever the
    state of the finalizer. *)
Lemma cleanup_existing d dirs :
  TemporaryDirectory.name d ∈ dirs ->
  (cleanup d dirs).1.2 = rmtree (TemporaryDirectory.name d) dirs.
Proof.
  intros Hin. unfold cleanup. rewrite (bool_decide_eq_true_2 _ Hin).
  by rewrite orb_true_r.
Qed.

Lemma cleanup_attached d dirs :
  TemporaryDirectory.finalizer_alive d = true ->
  (cleanup d dirs).1.2 = rmtree (TemporaryDirectory.name d) dirs.
Proof. intros Ha. unfold cleanup. by rewrite Ha. Qed.

(** What the cleanup leaves on disk: not the directory itself, and every
    path outside of it that was there. *)
Lemma cleanup_directories d dirs :
  (TemporaryDirectory.name d ∉ (cleanup d dirs).1.2)
  /\ (forall p, is_under (TemporaryDirectory.name d) p = false ->
                p ∈ (cleanup d dirs).1.2 <-> p ∈ dirs)
  /\ (forall p, p ∈ (cleanup d dirs).1.2 -> p ∈ dirs).
Proof.
  unfold cleanup.
  destruct (TemporaryDirectory.finalizer_alive d); simpl.
  - split; [|split].
    + intros [H _]%elem_of_rmtree. by rewrite is_under_refl in H.
    + intros p Hp. rewrite elem_of_rmtree. tauto.
    + by intros p [_ H]%elem_of_rmtree.
  - destruct (bool_decide (TemporaryDirectory.name d ∈ dirs)) eqn:E; simpl.
    + split; [|split].
      * intros [H _]%elem_of_rmtree. by rewrite is_under_refl in H.
      * intros p Hp. rewrite elem_of_rmtree. tauto.
      * by intros p [_ H]%elem_of_rmtree.
    + apply bool_decide_eq_false in E. by split.
Qed.

(** A release on a loader with both attributes: the entry is removed
    from the path, then the directory object is cleaned up. *)
Lemma del_removes self d w entries :
  config_dir self = Some d ->
  sys_path self = Some the_sys_path ->
  list_remove (TemporaryDirectory.name d) (path_entries w) = Some entries ->
  __del__ self w
  = ({| path_entries := entries; directories := (cleanup d (directories w)).1.2 |},
     {| config_dir := Some {| TemporaryDirectory.name := TemporaryDirectory.name d;
                              TemporaryDirectory.finalizer_alive := false |};
        sys_path := Some the_sys_path |},
     Ok tt).
Proof.
  intros Hd Hp Hr. unfold __del__. rewrite Hd, Hp, Hr.
  by rewrite (cleanup_result d (directories w)).
Qed.

Lemma del_path_entries self d w entries :
  config_dir self = Some d ->
  sys_path self = Some the_sys_path ->
  list_remove (TemporaryDirectory.name d) (path_entries w) = Some entries ->
  path_entries (__del__ self w).1.1 = entries.
Proof. intros Hd Hp Hr. by rewrite (del_removes self d w entries Hd Hp Hr). Qed.

Lemma del_not_in_path self d w :
  config_dir self = Some d ->
  sys_path self = Some the_sys_path ->
  TemporaryDirectory.name d ∉ path_entries w ->
  __del__ self w
  = (w, self, Raise (Exc ValueError "list.remove(x): x not in list" None)).
Proof.
  intros Hd Hp Hnot%list_remove_None. unfold __del__. by rewrite Hd, Hp, Hnot.
Qed.

End LoaderFacts.

(** C8, amended: release removes the first entry equal to the loader's
    directory from the search path and then deletes the directory with
    all it contains.  On a loader whose acquisition completed, a release
    made while the path holds such an entry succeeds, also when the
    directory is already gone, and afterwards the directory does not exist
    while every path outside of it is as before.  Release is not
    idempotent: made when the path holds no such entry, it raises
    [ValueError] and changes nothing, and this is what a second release
    does when the directory name was not in the path before the
    acquisition; on a loader whose acquisition failed it raises
    [AttributeError] and changes nothing. *)
Theorem loader_release_once (w : World) (dir_name : string) :
  (forall self d,
      ConfigFileLoader.config_dir self = Some d ->
      ConfigFileLoader.sys_path self = Some the_sys_path ->
      TemporaryDirectory.name d = dir_name ->
      (dir_name ∈ path_entries w ->
       exists before after dirs',
         path_entries w = (before ++ dir_name :: after)%list
         /\ (dir_name ∉ before)
         /\ ConfigFileLoader.__del__ self w
            = ({| path_entries := (before ++ after)%list; directories := dirs' |},
               {| ConfigFileLoader.config_dir :=
                    Some {| TemporaryDirectory.name := dir_name;
                            TemporaryDirectory.finalizer_alive := false |};
                  ConfigFileLoader.sys_path := Some the_sys_path |},
               Ok tt)
         /\ (dir_name ∉ dirs')
         /\ (forall p, is_under dir_name p = false ->
                       p ∈ dirs' <-> p ∈ directories w)
         /\ (dir_name ∈ directories w -> dirs' = rmtree dir_name (directories w)))
      /\ (dir_name ∉ path_entries w ->
          ConfigFileLoader.__del__ self w
          = (w, self, Raise (Exc ValueError "list.remove(x): x not in list" None))))
  /\ (dir_name ∉ path_entries w ->
      let acquired := ConfigFileLoader.__init__ (Ok dir_name) w in
      let released := ConfigFileLoader.__del__ acquired.1.2 acquired.1.1 in
      acquired.2 = Ok tt
      /\ released.2 = Ok tt
      /\ path_entries released.1.1 = path_entries w
      /\ (dir_name ∉ directories released.1.1)
      /\ ConfigFileLoader.__del__ released.1.2 released.1.1
         = (released.1.1, released.1.2,
            Raise (Exc ValueError "list.remove(x): x not in list" None)))
  /\ (forall e,
        let failed := ConfigFileLoader.__init__ (Raise e) w in
        failed.1.1 = w
        /\ failed.2 = Raise e
        /\ ConfigFileLoader.__del__ failed.1.2 failed.1.1
           = (w, failed.1.2,
              Raise (Exc AttributeError
                       "'ConfigFileLoader' object has no attribute 'sys_path'" None))).
Proof.
  split; [|split].
  - intros self d Hd Hp <-. split.
    + intros Hin.
      destruct (list_remove_is_Some _ _ Hin) as [entries Hr].
      destruct (proj1 (list_remove_Some _ _ _) Hr) as (before & after & Hsplit & Hfirst & Hrest).
      subst entries.
      exists before, after, (ConfigFileLoader.cleanup d (directories w)).1.2.
      destruct (cleanup_directories d (directories w)) as (Hgone & Hkeep & _).
      split; [done|]. split; [done|]. split; [by apply del_removes|].
      split; [done|]. split; [done|]. by apply cleanup_existing.
    + by apply del_not_in_path.
  - intros Hfresh. rewrite init_Ok. cbn [fst snd].
    pose proof (list_remove_app_fresh dir_name (path_entries w) [] Hfresh) as Hr.
    rewrite app_nil_r in Hr.
    erewrite (del_removes
                {| ConfigFileLoader.config_dir :=
                     Some {| TemporaryDirectory.name := dir_name;
                             TemporaryDirectory.finalizer_alive := true |};
                   ConfigFileLoader.sys_path := Some the_sys_path |}
                {| TemporaryDirectory.name := dir_name;
                   TemporaryDirectory.finalizer_alive := true |}
                {| path_entries := (path_entries w ++ [dir_name])%list;
                   directories := {[dir_name]} ∪ directories w |}
                (path_entries w) eq_refl eq_refl Hr).
    cbn [fst snd path_entries directories TemporaryDirectory.name].
    split; [done|]. split; [done|]. split; [done|]. split.
    + apply (cleanup_directories
               {| TemporaryDirectory.name := dir_name;
                  TemporaryDirectory.finalizer_alive := true |}).
    + by apply (del_not_in_path _ {| TemporaryDirectory.name := dir_name;
                                     TemporaryDirectory.finalizer_alive := false |}).
  - intros e. by repeat split.
Qed.

Lemma loader_release_once_witness :
  ("/tmp/torchbiggraph_config_a1" ∉ ["/usr/lib/python3"])
  /\ (let acquired :=
        ConfigFileLoader.__init__ (Ok "/tmp/torchbiggraph_config_a1")
          {| path_entries := ["/usr/lib/python3"]; directories := ∅ |} in
      let released := ConfigFileLoader.__del__ acquired.1.2 acquired.1.1 in
      acquired.2 = Ok tt
      /\ released.2 = Ok tt
      /\ path_entries released.1.1 = ["/usr/lib/python3"]
      /\ ("/tmp/torchbiggraph_config_a1" ∉ directories released.1.1)
      /\ ConfigFileLoader.__del__ released.1.2 released.1.1
         = (released.1.1, released.1.2,
            Raise (Exc ValueError "list.remove(x): x not in list" None))).
Proof.
  assert ("/tmp/torchbiggraph_config_a1" ∉ ["/usr/lib/python3"]) as Hfresh.
  { by intros [=]%list_elem_of_singleton. }
  split; [exact Hfresh|].
  exact (proj1 (proj2 (loader_release_once
                         {| path_entries := ["/usr/lib/python3"]; directories := ∅ |}
                         "/tmp/torchbiggraph_config_a1")) Hfresh).
Defined.

(** A second release raises. *)
Lemma second_release_raises :
  let w0 := {| path_entries := ["/usr/lib/python3"]; directories := ∅ |} in
  let acquired := ConfigFileLoader.__init__ (Ok "/tmp/torchbiggraph_config_a1") w0 in
  let released := ConfigFileLoader.__del__ acquired.1.2 acquired.1.1 in
  let released_again := ConfigFileLoader.__del__ released.1.2 released.1.1 in
  acquired.2 = Ok tt
  /\ released.2 = Ok tt
  /\ released_again.2 = Raise (Exc ValueError "list.remove(x): x not in list" None).
Proof. vm_compute. by repeat split. Qed.

(** C9: acquisition appends one entry, the loader's directory, to the
    search path.  Release removes the first entry equal to that directory,
    whatever else the path holds by then: the entries different from it are
    the same, in the same order, and the path is one entry shorter.  With
    two loaders alive whose directories differ, releasing either leaves the
    entry of the other. *)
Theorem loader_path_entry_frame (w : World) (dir_name : string) :
  (exists w1 self,
      ConfigFileLoader.__init__ (Ok dir_name) w = (w1, self, Ok tt)
      /\ path_entries w1 = (path_entries w ++ [dir_name])%list
      /\ ConfigFileLoader.config_dir self
         = Some {| TemporaryDirectory.name := dir_name;
                   TemporaryDirectory.finalizer_alive := true |}
      /\ ConfigFileLoader.sys_path self = Some the_sys_path)
  /\ (forall self d w',
        ConfigFileLoader.config_dir self = Some d ->
        ConfigFileLoader.sys_path self = Some the_sys_path ->
        TemporaryDirectory.name d = dir_name ->
        dir_name ∈ path_entries w' ->
        exists l1 l2,
          path_entries w' = (l1 ++ dir_name :: l2)%list
          /\ (dir_name ∉ l1)
          /\ path_entries (ConfigFileLoader.__del__ self w').1.1
             = (l1 ++ l2)%list
          /\ filter (fun x => x <> dir_name)
               (path_entries (ConfigFileLoader.__del__ self w').1.1)
             = filter (fun x => x <> dir_name) (path_entries w')
          /\ length (path_entries w')
             = S (length (path_entries
                            (ConfigFileLoader.__del__ self w').1.1)))
  /\ (forall other,
        other <> dir_name ->
        dir_name ∉ path_entries w ->
        other ∉ path_entries w ->
        let first := ConfigFileLoader.__init__ (Ok dir_name) w in
        let second := ConfigFileLoader.__init__ (Ok other) first.1.1 in
        path_entries second.1.1 = (path_entries w ++ [dir_name; other])%list
        /\ path_entries
             (ConfigFileLoader.__del__ first.1.2 second.1.1).1.1
           = (path_entries w ++ [other])%list
        /\ path_entries
             (ConfigFileLoader.__del__ second.1.2 second.1.1).1.1
           = (path_entries w ++ [dir_name])%list).
Proof.
  split; [|split].
  - eexists _, _. rewrite init_Ok. by repeat split.
  - intros self d w' Hd Hp <- Hin.
    destruct (list_remove_is_Some _ _ Hin) as [entries Hr].
    rewrite (del_removes self d w' entries Hd Hp Hr). simpl.
    destruct (list_remove_others _ _ _ Hr) as [Hfilter Hlen].
    apply list_remove_Some in Hr as (l1 & l2 & Hsplit & Hnot & ->).
    exists l1, l2. by repeat split.
  - intros other Hne Hd Ho. simpl. split.
    { by rewrite <- app_assoc. }
    split.
    + eapply del_path_entries; [reflexivity | reflexivity |].
      simpl. rewrite <- app_assoc. simpl.
      by apply list_remove_app_fresh.
    + eapply del_path_entries; [reflexivity | reflexivity |].
      simpl.
      rewrite <- (app_nil_r (path_entries w ++ [dir_name])%list) at 2.
      apply list_remove_app_fresh.
      rewrite not_elem_of_app. split; [done|].
      by intros ->%list_elem_of_singleton.
Qed.

Lemma loader_path_entry_frame_witness :
  ConfigFileLoader.config_dir
    {| ConfigFileLoader.config_dir :=
         Some {| TemporaryDirectory.name := "/tmp/torchbiggraph_config_a1";
                 TemporaryDirectory.finalizer_alive := true |};
       ConfigFileLoader.sys_path := Some the_sys_path |}
  = Some {| TemporaryDirectory.name := "/tmp/torchbiggraph_config_a1";
            TemporaryDirectory.finalizer_alive := true |}
  /\ "/tmp/torchbiggraph_config_a1"
       ∈ ["/usr/lib/python3"; "/tmp/torchbiggraph_config_a1";
          "/tmp/torchbiggraph_config_b2"]
  /\ exists l1 l2,
      ["/usr/lib/python3"; "/tmp/torchbiggraph_config_a1";
       "/tmp/torchbiggraph_config_b2"]
      = (l1 ++ "/tmp/torchbiggraph_config_a1" :: l2)%list
      /\ ("/tmp/torchbiggraph_config_a1" ∉ l1)
      /\ path_entries
           (ConfigFileLoader.__del__
              {| ConfigFileLoader.config_dir :=
                   Some {| TemporaryDirectory.name := "/tmp/torchbiggraph_config_a1";
                           TemporaryDirectory.finalizer_alive := true |};
                 ConfigFileLoader.sys_path := Some the_sys_path |}
              {| path_entries :=
                   ["/usr/lib/python3"; "/tmp/torchbiggraph_config_a1";
                    "/tmp/torchbiggraph_config_b2"];
                 directories := {["/tmp/torchbiggraph_config_a1"]}
                                  ∪ {["/tmp/torchbiggraph_config_b2"]} |}).1.1
         = (l1 ++ l2)%list.
Proof.
  split; [reflexivity|].
  assert ("/tmp/torchbiggraph_config_a1"
            ∈ ["/usr/lib/python3"; "/tmp/torchbiggraph_config_a1";
               "/tmp/torchbiggraph_config_b2"]) as Hin.
  { apply list_elem_of_further, list_elem_of_here. }
  split; [exact Hin|].
  destruct (proj1 (proj2 (loader_path_entry_frame
                            {| path_entries := []; directories := ∅ |}
                            "/tmp/torchbiggraph_config_a1"))
              {| ConfigFileLoader.config_dir :=
                   Some {| TemporaryDirectory.name := "/tmp/torchbiggraph_config_a1";
                           TemporaryDirectory.finalizer_alive := true |};
                 ConfigFileLoader.sys_path := Some the_sys_path |}
              {| TemporaryDirectory.name := "/tmp/torchbiggraph_config_a1";
                 TemporaryDirectory.finalizer_alive := true |}
              {| path_entries :=
                   ["/usr/lib/python3"; "/tmp/torchbiggraph_config_a1";
                    "/tmp/torchbiggraph_config_b2"];
                 directories := {["/tmp/torchbiggraph_config_a1"]}
                                  ∪ {["/tmp/torchbiggraph_config_b2"]} |}
              eq_refl eq_refl eq_refl Hin)
    as (l1 & l2 & H1 & H2 & H3 & _).
  exists l1, l2. by repeat split.
Defined.

(** * Further properties *)

(** ** Text *)

Section MoreStrFacts.

Variable sep : ascii.

Lemma contains_app a b :
  Str.contains sep (a +:+ b) = Str.contains sep a || Str.contains sep b.
Proof.
  induction a as [|c a IH]; simpl; [done|]. by rewrite IH, orb_assoc.
Qed.

Lemma rfind_split_not_contains s :
  Str.contains sep s = false -> Str.rfind_split sep s = None.
Proof.
  intros Hc. destruct (Str.rfind_split sep s) as [[h t]|] eqn:E; [|done].
  apply rfind_split_Some in E as [-> _].
  rewrite contains_app in Hc. simpl in Hc.
  rewrite Ascii.eqb_refl in Hc. simpl in Hc. by rewrite orb_true_r in Hc.
Qed.

(** Without a separator [rpartition] returns the text as its third part. *)
Lemma rpartition_not_found s :
  Str.contains sep s = false ->
  Str.rpartition sep s = (EmptyString, EmptyString, s).
Proof. intros Hc. unfold Str.rpartition. by rewrite rfind_split_not_contains. Qed.

(** There is one piece more than there are separators. *)
Lemma split_length s : length (Str.split sep s) = S (str_count sep s).
Proof.
  induction s as [|a rest IH]; simpl; [done|].
  destruct (Ascii.eqb a sep); simpl; [by rewrite IH|].
  pose proof (split_nonempty sep rest) as Hne.
  destruct (Str.split sep rest) as [|piece pieces]; [done|].
  by rewrite <- IH.
Qed.

End MoreStrFacts.

(** The key of a one-character override is empty, whatever the character. *)
Lemma rpartition_one_character (c : ascii) :
  exists sep value,
    Str.rpartition "=" (String c EmptyString) = (EmptyString, sep, value).
Proof.
  unfold Str.rpartition. simpl. destruct (Ascii.eqb c "="); by eexists _, _.
Qed.

(** ** The override loop *)

Section MoreOverrideFacts.

Variable py_float : string -> result spec_float.
Variable extract_nested_type : PyType -> list string -> result PyType.
Variable inject_nested_value : Value -> list string -> Value -> Value * result unit.

Local Abbreviation more_one :=
  (override_one py_float extract_nested_type inject_nested_value).
Local Abbreviation more_loop :=
  (override_loop py_float extract_nested_type inject_nested_value).
Local Abbreviation more_ocd :=
  (override_config_dict py_float extract_nested_type inject_nested_value).

(** The loop over a concatenation runs the second part from the state the
    first part reached, unless the first part failed. *)
Lemma override_loop_app_cases config_dict pre post :
  more_loop config_dict (pre ++ post)%list =
    match more_loop config_dict pre with
    | (reached, Ok _) => more_loop reached post
    | failed => failed
    end.
Proof.
  revert config_dict. induction pre as [|o pre IH]; intros config_dict; simpl; [done|].
  destruct (more_one config_dict o) as [c [[]|e]]; [apply IH | done].
Qed.

Lemma override_loop_stops config_dict pre override post reached after e :
  more_loop config_dict pre = (reached, Ok tt) ->
  more_one reached override = (after, Raise e) ->
  more_loop config_dict (pre ++ override :: post)%list = (after, Raise e).
Proof.
  intros Hpre Hone. rewrite override_loop_app_cases, Hpre. simpl. by rewrite Hone.
Qed.

Lemma override_config_dict_loop config_dict overrides :
  more_ocd config_dict overrides =
    match more_loop config_dict (concat (default [] overrides)) with
    | (reached, Ok _) => (reached, Ok reached)
    | (reached, Raise e) => (reached, Raise e)
    end.
Proof. by destruct overrides. Qed.

(** A failing loop stopped at one override: the overrides before it were
    applied, its body raised, and what the loop raises is that exception,
    wrapped when it is an [Exception]. *)
Lemma override_loop_raises config_dict overrides after e :
  more_loop config_dict overrides = (after, Raise e) ->
  exists pre override post reached cause,
    overrides = (pre ++ override :: post)%list
    /\ more_loop config_dict pre = (reached, Ok tt)
    /\ override_body py_float extract_nested_type inject_nested_value
         reached override = (after, Raise cause)
    /\ e = (if is_Exception cause
            then Exc RuntimeError ("Can't parse override: " +:+ override) (Some cause)
            else cause).
Proof.
  revert config_dict. induction overrides as [|o rest IH]; intros config_dict; simpl; [done|].
  destruct (more_one config_dict o) as [c [[]|e']] eqn:Hone.
  - intros Hrest.
    destruct (IH _ Hrest) as (pre & o' & post & reached & cause & -> & Hpre & Hbody & He).
    exists (o :: pre), o', post, reached, cause.
    split; [done|]. split; [|done]. simpl. by rewrite Hone.
  - intros [= <- <-]. unfold override_one in Hone.
    destruct (override_body _ _ _ config_dict o) as [c' [[]|err]] eqn:Hbody; [done|].
    exists [], o, rest, config_dict, err.
    split; [done|]. split; [done|].
    destruct (is_Exception err); injection Hone as <- <-; by rewrite Hbody.
Qed.

End MoreOverrideFacts.

(** X1: overrides compose in sequence.  Without overrides the
    configuration is returned as it is; after a first batch succeeded, the
    overrides of a second batch are applied to the configuration the first
    one produced; a failure in the first batch is the outcome, whatever
    follows; and only the flattened order of the overrides matters, not
    their grouping. *)
Theorem overrides_compose
    (py_float : string -> result spec_float)
    (extract_nested_type : PyType -> list string -> result PyType)
    (inject_nested_value : Value -> list string -> Value -> Value * result unit)
    (config_dict : Value) (first second : list (list string)) :
  override_config_dict py_float extract_nested_type inject_nested_value
    config_dict None = (config_dict, Ok config_dict)
  /\ (forall reached returned,
        override_config_dict py_float extract_nested_type inject_nested_value
          config_dict (Some first) = (reached, Ok returned) ->
        returned = reached
        /\ override_config_dict py_float extract_nested_type inject_nested_value
             config_dict (Some (first ++ second)%list)
           = override_config_dict py_float extract_nested_type inject_nested_value
               reached (Some second))
  /\ (forall reached e,
        override_config_dict py_float extract_nested_type inject_nested_value
          config_dict (Some first) = (reached, Raise e) ->
        override_config_dict py_float extract_nested_type inject_nested_value
          config_dict (Some (first ++ second)%list) = (reached, Raise e))
  /\ override_config_dict py_float extract_nested_type inject_nested_value
       config_dict (Some first)
     = override_config_dict py_float extract_nested_type inject_nested_value
         config_dict (Some [concat first]).
Proof.
  split; [done|]. split; [|split].
  - intros reached returned. rewrite !override_config_dict_loop. simpl.
    rewrite concat_app, override_loop_app_cases.
    destruct (override_loop _ _ _ config_dict (concat first)) as [c [[]|e]]; [|done].
    by intros [= <- <-].
  - intros reached e. rewrite !override_config_dict_loop. simpl.
    rewrite concat_app, override_loop_app_cases.
    destruct (override_loop _ _ _ config_dict (concat first)) as [c [[]|e']]; [done|].
    by intros [= <- <-].
  - rewrite !override_config_dict_loop. simpl. by rewrite app_nil_r.
Qed.

Lemma overrides_compose_witness :
  spec_override_config_dict example_float (VDict []) (Some [["dimension=400"]])
  = (VDict [("dimension", VInt 400)], Ok (VDict [("dimension", VInt 400)]))
  /\ spec_override_config_dict example_float (VDict [])
       (Some ([["dimension=400"]] ++ [["comparator=dot"; "dimension=7"]])%list)
     = spec_override_config_dict example_float (VDict [("dimension", VInt 400)])
         (Some [["comparator=dot"; "dimension=7"]])
  /\ spec_override_config_dict example_float (VDict []) (Some [["dimension=x"]])
     = (VDict [],
        Raise (Exc RuntimeError "Can't parse override: dimension=x"
                 (Some (Exc ValueError
                          "invalid literal for int() with base 10: 'x'" None))))
  /\ spec_override_config_dict example_float (VDict [])
       (Some ([["dimension=x"]] ++ [["comparator=dot"]])%list)
     = (VDict [],
        Raise (Exc RuntimeError "Can't parse override: dimension=x"
                 (Some (Exc ValueError
                          "invalid literal for int() with base 10: 'x'" None)))).
Proof.
  split; [reflexivity|]. split.
  - exact (proj2 (proj1 (proj2 (overrides_compose example_float
                                  spec_extract_nested_type spec_inject_nested_value
                                  (VDict []) [["dimension=400"]]
                                  [["comparator=dot"; "dimension=7"]]))
                    _ _ eq_refl)).
  - split; [reflexivity|].
    exact (proj1 (proj2 (proj2 (overrides_compose example_float
                                  spec_extract_nested_type spec_inject_nested_value
                                  (VDict []) [["dimension=x"]] [["comparator=dot"]])))
             _ _ eq_refl).
Defined.

(** X2: the overrides are not applied atomically.  When the navigator or
    the coercion fails on an override, the configuration keeps the effect
    of all the overrides before it, none of the overrides after it is
    applied, and the wrapped error is raised. *)
Theorem override_failure_keeps_earlier
    (py_float : string -> result spec_float)
    (extract_nested_type : PyType -> list string -> result PyType)
    (inject_nested_value : Value -> list string -> Value -> Value * result unit)
    (config_dict reached : Value) (overrides : list (list string))
    (pre post : list string) (override key sep value : string) (err : exn) :
  concat overrides = (pre ++ override :: post)%list ->
  override_loop py_float extract_nested_type inject_nested_value config_dict pre
  = (reached, Ok tt) ->
  Str.rpartition "=" override = (key, sep, value) ->
  is_Exception err = true ->
  (extract_nested_type TConfigSchema (Str.split "." key) = Raise err
   \/ exists param_type,
        extract_nested_type TConfigSchema (Str.split "." key) = Ok param_type
        /\ coerce py_float param_type value = Raise err) ->
  override_config_dict py_float extract_nested_type inject_nested_value
    config_dict (Some overrides)
  = (reached,
     Raise (Exc RuntimeError ("Can't parse override: " +:+ override) (Some err))).
Proof.
  intros Hflat Hpre Hr He Hfail.
  assert (override_body py_float extract_nested_type inject_nested_value
            reached override = (reached, Raise err)) as Hb.
  { rewrite (override_body_parts _ _ _ _ _ _ _ _ Hr).
    destruct Hfail as [Hn | (t & Hn & Hc)]; rewrite Hn; [done|]. by rewrite Hc. }
  rewrite override_config_dict_loop. simpl. rewrite Hflat.
  by rewrite (override_loop_stops _ _ _ _ _ _ _ _ _ _ Hpre
                (override_one_wraps _ _ _ _ _ _ _ Hb He)).
Qed.

Lemma override_failure_keeps_earlier_witness :
  concat [["dimension=400"; "dimension=abc"]; ["comparator=dot"]]
  = (["dimension=400"] ++ "dimension=abc" :: ["comparator=dot"])%list
  /\ override_loop example_float spec_extract_nested_type spec_inject_nested_value
       (VDict []) ["dimension=400"]
     = (VDict [("dimension", VInt 400)], Ok tt)
  /\ Str.rpartition "=" "dimension=abc" = ("dimension", "=", "abc")
  /\ spec_extract_nested_type TConfigSchema (Str.split "." "dimension") = Ok Tint
  /\ coerce example_float Tint "abc"
     = Raise (Exc ValueError "invalid literal for int() with base 10: 'abc'" None)
  /\ spec_override_config_dict example_float (VDict [])
       (Some [["dimension=400"; "dimension=abc"]; ["comparator=dot"]])
     = (VDict [("dimension", VInt 400)],
        Raise (Exc RuntimeError "Can't parse override: dimension=abc"
                 (Some (Exc ValueError
                          "invalid literal for int() with base 10: 'abc'" None)))).
Proof.
  split; [reflexivity|]. split; [reflexivity|]. split; [reflexivity|].
  split; [reflexivity|]. split; [reflexivity|].
  apply (override_failure_keeps_earlier example_float spec_extract_nested_type
           spec_inject_nested_value (VDict []) (VDict [("dimension", VInt 400)])
           [["dimension=400"; "dimension=abc"]; ["comparator=dot"]]
           ["dimension=400"] ["comparator=dot"]
           "dimension=abc" "dimension" "=" "abc"
           (Exc ValueError "invalid literal for int() with base 10: 'abc'" None)
           eq_refl eq_refl eq_refl eq_refl).
  right. exists Tint. split; reflexivity.
Defined.

(** X3: what [override_config_dict] raises comes from the override at which
    the loop stopped.  The overrides before it were applied in order, the
    body of the loop raised on it from the state they reached, and the
    raised exception is that failure itself when it is not an [Exception],
    and otherwise the [RuntimeError] whose message is the fixed prefix
    followed by that override and whose cause is that failure.  So every
    [Exception] raised is such a wrapper. *)
Theorem override_raises_only_wrapped
    (py_float : string -> result spec_float)
    (extract_nested_type : PyType -> list string -> result PyType)
    (inject_nested_value : Value -> list string -> Value -> Value * result unit)
    (config_dict after : Value) (overrides : option (list (list string)))
    (e : exn) :
  override_config_dict py_float extract_nested_type inject_nested_value
    config_dict overrides = (after, Raise e) ->
  exists pre override post reached cause,
    concat (default [] overrides) = (pre ++ override :: post)%list
    /\ override_loop py_float extract_nested_type inject_nested_value
         config_dict pre = (reached, Ok tt)
    /\ override_body py_float extract_nested_type inject_nested_value
         reached override = (after, Raise cause)
    /\ e = (if is_Exception cause
            then Exc RuntimeError ("Can't parse override: " +:+ override) (Some cause)
            else cause)
    /\ (is_Exception e = true ->
        is_Exception cause = true
        /\ e = Exc RuntimeError ("Can't parse override: " +:+ override) (Some cause)).
Proof.
  rewrite override_config_dict_loop.
  destruct (override_loop _ _ _ config_dict (concat (default [] overrides)))
    as [c [[]|e']] eqn:Hloop; [done|].
  intros [= <- <-].
  destruct (override_loop_raises _ _ _ _ _ _ _ Hloop)
    as (pre & o & post & reached & cause & Hsplit & Hpre & Hbody & He).
  exists pre, o, post, reached, cause.
  split; [done|]. split; [done|]. split; [done|]. split; [done|].
  intros Hexc. destruct (is_Exception cause) eqn:Hc; [done|]. congruence.
Qed.

Lemma override_raises_only_wrapped_witness :
  spec_override_config_dict example_float (VDict [])
    (Some [["dimension=400"; "no_such_field=1"]])
  = (VDict [("dimension", VInt 400)],
     Raise (Exc RuntimeError "Can't parse override: no_such_field=1"
              (Some (Exc PathError "unknown attribute no_such_field" None))))
  /\ exists pre override post reached cause,
      concat (default [] (Some [["dimension=400"; "no_such_field=1"]]))
      = (pre ++ override :: post)%list
      /\ override_loop example_float spec_extract_nested_type spec_inject_nested_value
           (VDict []) pre = (reached, Ok tt)
      /\ override_body example_float spec_extract_nested_type spec_inject_nested_value
           reached override = (VDict [("dimension", VInt 400)], Raise cause)
      /\ Exc RuntimeError "Can't parse override: no_such_field=1"
           (Some (Exc PathError "unknown attribute no_such_field" None))
         = (if is_Exception cause
            then Exc RuntimeError ("Can't parse override: " +:+ override) (Some cause)
            else cause)
      /\ (is_Exception
            (Exc RuntimeError "Can't parse override: no_such_field=1"
               (Some (Exc PathError "unknown attribute no_such_field" None))) = true ->
          is_Exception cause = true
          /\ Exc RuntimeError "Can't parse override: no_such_field=1"
               (Some (Exc PathError "unknown attribute no_such_field" None))
             = Exc RuntimeError ("Can't parse override: " +:+ override) (Some cause)).
Proof.
  split; [reflexivity|].
  apply (override_raises_only_wrapped example_float spec_extract_nested_type
           spec_inject_nested_value (VDict []) (VDict [("dimension", VInt 400)])
           (Some [["dimension=400"; "no_such_field=1"]])).
  reflexivity.
Defined.

(** X4: an override without [=] is not rejected by the split: its key is
    empty, so the path handed to the navigator and to the injector is the
    single empty segment, and the whole text is the value. *)
Theorem override_without_equals
    (py_float : string -> result spec_float)
    (extract_nested_type : PyType -> list string -> result PyType)
    (inject_nested_value : Value -> list string -> Value -> Value * result unit)
    (config_dict : Value) (override : string) :
  Str.contains "=" override = false ->
  Str.rpartition "=" override = (EmptyString, EmptyString, override)
  /\ override_body py_float extract_nested_type inject_nested_value
       config_dict override =
     match extract_nested_type TConfigSchema [EmptyString] with
     | Raise e => (config_dict, Raise e)
     | Ok param_type =>
         match coerce py_float param_type override with
         | Raise e => (config_dict, Raise e)
         | Ok value => inject_nested_value config_dict [EmptyString] value
         end
     end.
Proof.
  intros Hc. pose proof (rpartition_not_found "=" override Hc) as Hr.
  split; [done|]. by rewrite (override_body_parts _ _ _ _ _ _ _ _ Hr).
Qed.

Lemma override_without_equals_witness :
  Str.contains "=" "dimension" = false
  /\ Str.rpartition "=" "dimension" = (EmptyString, EmptyString, "dimension")
  /\ override_body example_float spec_extract_nested_type spec_inject_nested_value
       (VDict []) "dimension"
     = (VDict [], Raise (Exc PathError "unknown attribute " None)).
Proof.
  split; [reflexivity|].
  exact (override_without_equals example_float spec_extract_nested_type
           spec_inject_nested_value (VDict []) "dimension" eq_refl).
Defined.

(** X5: the engine resolves paths against [ConfigSchema] only and never
    hands an empty path to the navigator or to the injector: two navigators
    that agree on the non-empty paths of [ConfigSchema], with two injectors
    that agree on the non-empty paths, give the same result on every
    configuration and every list of overrides. *)
Theorem override_never_uses_empty_path
    (py_float : string -> result spec_float)
    (nav1 nav2 : PyType -> list string -> result PyType)
    (inj1 inj2 : Value -> list string -> Value -> Value * result unit) :
  (forall path, path <> [] -> nav1 TConfigSchema path = nav2 TConfigSchema path) ->
  (forall raw path value, path <> [] -> inj1 raw path value = inj2 raw path value) ->
  forall config_dict overrides,
    override_config_dict py_float nav1 inj1 config_dict overrides
    = override_config_dict py_float nav2 inj2 config_dict overrides.
Proof.
  intros Hnav Hinj config_dict overrides.
  assert (forall c o, override_one py_float nav1 inj1 c o
                      = override_one py_float nav2 inj2 c o) as Hone.
  { intros c o. unfold override_one, override_body.
    destruct (Str.rpartition "=" o) as [[key sep] value].
    pose proof (split_nonempty "." key) as Hne.
    rewrite (Hnav _ Hne).
    destruct (nav2 TConfigSchema (Str.split "." key)) as [t|e]; [|done].
    destruct (coerce py_float t value) as [v|e]; [|done].
    by rewrite (Hinj _ _ _ Hne). }
  rewrite !override_config_dict_loop.
  generalize (concat (default [] overrides)). intros l.
  assert (override_loop py_float nav1 inj1 config_dict l
          = override_loop py_float nav2 inj2 config_dict l) as ->; [|done].
  revert config_dict. induction l as [|o l IH]; intros config_dict; simpl; [done|].
  rewrite Hone. destruct (override_one py_float nav2 inj2 config_dict o) as [c [[]|e]];
    [apply IH | done].
Qed.

Lemma override_never_uses_empty_path_witness :
  (forall path, path <> [] ->
     spec_extract_nested_type TConfigSchema path
     = example_navigator TConfigSchema path)
  /\ spec_extract_nested_type TConfigSchema [] <> example_navigator TConfigSchema []
  /\ override_config_dict example_float spec_extract_nested_type
       spec_inject_nested_value (VDict []) (Some [["dimension=400"]])
     = override_config_dict example_float example_navigator
         spec_inject_nested_value (VDict []) (Some [["dimension=400"]]).
Proof.
  assert (forall path, path <> [] ->
            spec_extract_nested_type TConfigSchema path
            = example_navigator TConfigSchema path) as Hnav.
  { intros [|segment rest] Hne; [done | reflexivity]. }
  split; [exact Hnav|]. split; [discriminate|].
  apply (override_never_uses_empty_path example_float spec_extract_nested_type
           example_navigator spec_inject_nested_value spec_inject_nested_value
           Hnav (fun _ _ _ _ => eq_refl)).
Defined.

(** X6: the value text is converted for three kinds of resolved type only.
    For every other one (the text, the enumeration, the boolean and the
    schema classes, mappings, optional annotations) it is injected
    unchanged, as a string. *)
Theorem override_text_passthrough
    (py_float : string -> result spec_float)
    (extract_nested_type : PyType -> list string -> result PyType)
    (inject_nested_value : Value -> list string -> Value -> Value * result unit)
    (config_dict : Value) (override key sep value : string) (param_type : PyType) :
  Str.rpartition "=" override = (key, sep, value) ->
  extract_nested_type TConfigSchema (Str.split "." key) = Ok param_type ->
  (forall element_type, param_type <> TList element_type) ->
  param_type <> Tint ->
  param_type <> Tfloat ->
  override_body py_float extract_nested_type inject_nested_value
    config_dict override
  = inject_nested_value config_dict (Str.split "." key) (VStr value).
Proof.
  intros Hr Hn Hl Hi Hf.
  rewrite (override_body_parts _ _ _ _ _ _ _ _ Hr), Hn.
  rewrite coerce_passthrough; [done | | done | done].
  destruct param_type; try done. by destruct (Hl param_type).
Qed.

Lemma override_text_passthrough_witness :
  Str.rpartition "=" "bucket_order=affinity" = ("bucket_order", "=", "affinity")
  /\ spec_extract_nested_type TConfigSchema (Str.split "." "bucket_order")
     = Ok TBucketOrder
  /\ override_body example_float spec_extract_nested_type spec_inject_nested_value
       (VDict []) "bucket_order=affinity"
     = (VDict [("bucket_order", VStr "affinity")], Ok tt).
Proof.
  split; [reflexivity|]. split; [reflexivity|].
  apply (override_text_passthrough example_float spec_extract_nested_type
           spec_inject_nested_value (VDict []) "bucket_order=affinity"
           "bucket_order" "=" "affinity" TBucketOrder eq_refl eq_refl);
    discriminate.
Defined.

(** X7: a list override can never produce the empty list.  The injected
    list has one string more than the value has commas; for an empty value
    it is the list of one empty string. *)
Theorem override_list_never_empty
    (py_float : string -> result spec_float)
    (extract_nested_type : PyType -> list string -> result PyType)
    (inject_nested_value : Value -> list string -> Value -> Value * result unit)
    (config_dict : Value) (override key sep value : string) (element_type : PyType) :
  Str.rpartition "=" override = (key, sep, value) ->
  extract_nested_type TConfigSchema (Str.split "." key) = Ok (TList element_type) ->
  exists pieces,
    override_body py_float extract_nested_type inject_nested_value
      config_dict override
    = inject_nested_value config_dict (Str.split "." key) (VList (VStr <$> pieces))
    /\ length pieces = S (str_count "," value)
    /\ pieces <> []
    /\ (value = EmptyString -> pieces = [EmptyString]).
Proof.
  intros Hr Hn. exists (Str.split "," value).
  split; [|split; [|split]].
  - rewrite (override_body_parts _ _ _ _ _ _ _ _ Hr), Hn. by rewrite coerce_list.
  - apply split_length.
  - apply split_nonempty.
  - by intros ->.
Qed.

Lemma override_list_never_empty_witness :
  Str.rpartition "=" "edge_paths=" = ("edge_paths", "=", EmptyString)
  /\ spec_extract_nested_type TConfigSchema (Str.split "." "edge_paths")
     = Ok (TList Tstr)
  /\ exists pieces,
      override_body example_float spec_extract_nested_type spec_inject_nested_value
        (VDict []) "edge_paths="
      = spec_inject_nested_value (VDict []) (Str.split "." "edge_paths")
          (VList (VStr <$> pieces))
      /\ length pieces = S (str_count "," EmptyString)
      /\ pieces <> []
      /\ (EmptyString = EmptyString -> pieces = [EmptyString]).
Proof.
  split; [reflexivity|]. split; [reflexivity|].
  exact (override_list_never_empty example_float spec_extract_nested_type
           spec_inject_nested_value (VDict []) "edge_paths="
           "edge_paths" "=" EmptyString Tstr eq_refl eq_refl).
Defined.

(** ** The bucket orders *)

(** X9: the four bucket orders have four different values, so looking a
    member up by its value gives the member back, and a lookup succeeds
    only for the value of the member it returns; for any other text it
    raises [ValueError] with the [repr] of the text in the message. *)
Theorem BucketOrder_value_round_trip (order : BucketOrder) (value : string) :
  BucketOrder_of_value (BucketOrder_value order) = Ok order
  /\ (BucketOrder_of_value value = Ok order -> BucketOrder_value order = value)
  /\ ((forall other, BucketOrder_value other <> value) ->
      BucketOrder_of_value value
      = Raise (Exc ValueError (Str.repr value +:+ " is not a valid BucketOrder") None)).
Proof.
  split; [by destruct order|]. split.
  - unfold BucketOrder_of_value.
    repeat match goal with
           | |- context [String.eqb value ?s] =>
               destruct (String.eqb_spec value s) as [->|?]
           end; intros [= <-]; reflexivity.
  - intros Hno. unfold BucketOrder_of_value.
    repeat match goal with
           | |- context [String.eqb value ?s] =>
               destruct (String.eqb_spec value s) as [->|?]
           end; try reflexivity.
    + by destruct (Hno RANDOM).
    + by destruct (Hno AFFINITY).
    + by destruct (Hno INSIDE_OUT).
    + by destruct (Hno OUTSIDE_IN).
Qed.

Lemma BucketOrder_value_round_trip_witness :
  BucketOrder_of_value "outside_in" = Ok OUTSIDE_IN
  /\ BucketOrder_value OUTSIDE_IN = "outside_in"
  /\ (forall other, BucketOrder_value other <> "it's random")
  /\ BucketOrder_of_value "it's random"
     = Raise (Exc ValueError
                (String Str.double_quote
                   ("it's random"
                    +:+ String Str.double_quote " is not a valid BucketOrder")) None).
Proof.
  split; [reflexivity|].
  split.
  { exact (proj1 (proj2 (BucketOrder_value_round_trip OUTSIDE_IN "outside_in"))
             eq_refl). }
  assert (forall other, BucketOrder_value other <> "it's random") as Hno.
  { intros []; discriminate. }
  split; [exact Hno|].
  exact (proj2 (proj2 (BucketOrder_value_round_trip RANDOM "it's random")) Hno).
Defined.

(** ** Cross-field validation, completed *)

Lemma check_relations_known entities rel_id relations :
  (forall rel, rel ∈ relations ->
     RelationSchema.lhs rel ∈ dom entities /\ RelationSchema.rhs rel ∈ dom entities) ->
  ConfigSchema.check_relations entities rel_id relations = Ok tt.
Proof.
  revert rel_id. induction relations as [|r rest IH]; intros rel_id Hall; simpl; [done|].
  destruct (Hall r (list_elem_of_here _ _)) as [Hl Hr].
  apply elem_of_dom in Hl as [? Hl]. apply elem_of_dom in Hr as [? Hr].
  rewrite !decide_False by congruence.
  apply IH. intros rel Hin. by apply Hall, list_elem_of_further.
Qed.

(** X10: [__attrs_post_init__] accepts a configuration exactly when every
    relation names two known entity types, dynamic relations come with
    exactly one relation, and the two negative-sampling flags are not both
    set.  The loss function, the comparator and [background_io] never
    decide acceptance. *)
Theorem post_init_accepts_iff (self : ConfigSchema.t) :
  (exists log, ConfigSchema.__attrs_post_init__ self = (log, Ok tt))
  <->
  (forall rel, rel ∈ ConfigSchema.relations self ->
     RelationSchema.lhs rel ∈ dom (ConfigSchema.entities self)
     /\ RelationSchema.rhs rel ∈ dom (ConfigSchema.entities self))
  /\ (ConfigSchema.dynamic_relations self = true ->
      length (ConfigSchema.relations self) = 1)
  /\ ~ (ConfigSchema.disable_lhs_negs self = true
        /\ ConfigSchema.disable_rhs_negs self = true).
Proof.
  unfold ConfigSchema.__attrs_post_init__. split.
  - intros [log H].
    destruct (ConfigSchema.check_relations _ _ _) as [[]|e] eqn:Hrels; [|done].
    destruct (ConfigSchema.dynamic_relations self
              && negb (length (ConfigSchema.relations self) =? 1)%nat) eqn:Hdyn; [done|].
    destruct (ConfigSchema.disable_lhs_negs self
              && ConfigSchema.disable_rhs_negs self) eqn:Hnegs; [done|].
    split; [by apply (check_relations_Ok _ _ _ Hrels)|]. split.
    + intros Hd. rewrite Hd in Hdyn. simpl in Hdyn.
      apply negb_false_iff in Hdyn. by apply Nat.eqb_eq in Hdyn.
    + intros [Hl Hr]. by rewrite Hl, Hr in Hnegs.
  - intros (Hrels & Hdyn & Hnegs).
    rewrite (check_relations_known _ _ _ Hrels).
    assert (ConfigSchema.dynamic_relations self
            && negb (length (ConfigSchema.relations self) =? 1)%nat = false) as ->.
    { destruct (ConfigSchema.dynamic_relations self); [|done].
      simpl. rewrite (Hdyn eq_refl). done. }
    assert (ConfigSchema.disable_lhs_negs self
            && ConfigSchema.disable_rhs_negs self = false) as ->.
    { destruct (ConfigSchema.disable_lhs_negs self),
        (ConfigSchema.disable_rhs_negs self); try done. by destruct Hnegs. }
    by eexists.
Qed.

(** X11: with dynamic relations and a number of relations other than one
    (none included), a configuration whose relations are all known is
    rejected with the error about dynamic relations, before anything is
    logged and whatever the negative-sampling flags are. *)
Theorem dynamic_relations_need_one_relation (self : ConfigSchema.t) :
  (forall rel, rel ∈ ConfigSchema.relations self ->
     RelationSchema.lhs rel ∈ dom (ConfigSchema.entities self)
     /\ RelationSchema.rhs rel ∈ dom (ConfigSchema.entities self)) ->
  ConfigSchema.dynamic_relations self = true ->
  length (ConfigSchema.relations self) <> 1 ->
  ConfigSchema.__attrs_post_init__ self
  = ([], Raise (Exc ValueError
                  "When dynamic relations are in use only one relation type must be defined."
                  None)).
Proof.
  intros Hrels Hdyn Hlen. unfold ConfigSchema.__attrs_post_init__.
  rewrite (check_relations_known _ _ _ Hrels), Hdyn.
  apply Nat.eqb_neq in Hlen. by rewrite Hlen.
Qed.

(** X12: [__attrs_post_init__] logs warnings only, at most two.  The
    warning about logistic loss with the cosine comparator is logged
    exactly when these two are configured and the relation and
    dynamic-relation checks passed, also when the configuration is then
    rejected for its sampling flags; the deprecation warning is logged
    exactly when the configuration is accepted and [background_io] is
    set. *)
Theorem post_init_log (self : ConfigSchema.t) (log : list LogRecord)
    (outcome : result unit) :
  ConfigSchema.__attrs_post_init__ self = (log, outcome) ->
  Forall (fun record => record.1 = WARNING) log
  /\ length log <= 2
  /\ ((WARNING, "You have logistic loss and cosine distance. Are you sure?") ∈ log
      <-> ConfigSchema.loss_fn self = "logistic"
          /\ ConfigSchema.comparator self = "cos"
          /\ ConfigSchema.check_relations (ConfigSchema.entities self) 0
               (ConfigSchema.relations self) = Ok tt
          /\ (ConfigSchema.dynamic_relations self = true ->
              length (ConfigSchema.relations self) = 1))
  /\ ((WARNING, "`background_io` is deprecated and will have no effect.") ∈ log
      <-> outcome = Ok tt /\ ConfigSchema.background_io self = true).
Proof.
  unfold ConfigSchema.__attrs_post_init__.
  destruct (ConfigSchema.check_relations _ _ _) as [[]|e] eqn:Hrels;
    destruct (ConfigSchema.dynamic_relations self) eqn:Hdyn;
    destruct (Nat.eqb_spec (length (ConfigSchema.relations self)) 1) as [Hlen|Hlen];
    destruct (String.eqb_spec (ConfigSchema.loss_fn self) "logistic") as [Hl|Hl];
    destruct (String.eqb_spec (ConfigSchema.comparator self) "cos") as [Hc|Hc];
    destruct (ConfigSchema.disable_lhs_negs self),
      (ConfigSchema.disable_rhs_negs self), (ConfigSchema.background_io self);
    simpl; intros [= <- <-];
    (split; [repeat constructor|]); (split; [simpl; lia|]);
    rewrite ?elem_of_cons, ?elem_of_nil;
    intuition (try congruence; try discriminate).
Qed.

Lemma example_user_known :
  forall rel, rel ∈ [example_relation "user" "user"] ->
    RelationSchema.lhs rel ∈ dom example_entities
    /\ RelationSchema.rhs rel ∈ dom example_entities.
Proof.
  intros rel ->%list_elem_of_singleton. simpl.
  assert ("user" ∈ dom example_entities) as H.
  { apply elem_of_dom. unfold example_entities. rewrite lookup_singleton_eq. by eexists. }
  by split.
Qed.

Lemma post_init_accepts_iff_witness :
  exists log,
    ConfigSchema.__attrs_post_init__
      (example_config [example_relation "user" "user"] true false)
    = (log, Ok tt).
Proof.
  apply (proj2 (post_init_accepts_iff
                  (example_config [example_relation "user" "user"] true false))).
  split; [exact example_user_known|]. split; [discriminate|].
  intros [_ H]. discriminate H.
Defined.

Lemma dynamic_relations_need_one_relation_witness :
  ConfigSchema.dynamic_relations
    (example_variant
       (example_config [example_relation "user" "user"; example_relation "user" "user"]
          true true)
       true "ranking" false) = true
  /\ length [example_relation "user" "user"; example_relation "user" "user"] <> 1
  /\ ConfigSchema.__attrs_post_init__
       (example_variant
          (example_config
             [example_relation "user" "user"; example_relation "user" "user"]
             true true)
          true "ranking" false)
     = ([], Raise (Exc ValueError
                     "When dynamic relations are in use only one relation type must be defined."
                     None)).
Proof.
  split; [reflexivity|]. split; [discriminate|].
  apply (dynamic_relations_need_one_relation
           (example_variant
              (example_config
                 [example_relation "user" "user"; example_relation "user" "user"]
                 true true)
              true "ranking" false)); [|reflexivity|discriminate].
  intros rel Hin. apply example_user_known.
  apply elem_of_cons in Hin as [-> | Hin]; [apply list_elem_of_here | exact Hin].
Defined.

Lemma post_init_log_witness :
  ConfigSchema.__attrs_post_init__
    (example_variant (example_config [example_relation "user" "user"] false false)
       false "logistic" true)
  = ([(WARNING, "You have logistic loss and cosine distance. Are you sure?");
      (WARNING, "`background_io` is deprecated and will have no effect.")],
     Ok tt)
  /\ Forall (fun record : LogRecord => record.1 = WARNING)
       [(WARNING, "You have logistic loss and cosine distance. Are you sure?");
        (WARNING, "`background_io` is deprecated and will have no effect.")].
Proof.
  assert (ConfigSchema.__attrs_post_init__
            (example_variant
               (example_config [example_relation "user" "user"] false false)
               false "logistic" true)
          = ([(WARNING, "You have logistic loss and cosine distance. Are you sure?");
              (WARNING, "`background_io` is deprecated and will have no effect.")],
             Ok tt)) as H.
  { vm_compute. reflexivity. }
  split; [exact H|].
  exact (proj1 (post_init_log _ _ _ H)).
Defined.

(** ** Parsing and loading *)

(** X13: [parse_config] never raises a [DeepTypeError].  It returns a
    configuration exactly when [from_dict] returned it, and it adds to the
    log of [from_dict] critical records only, and none unless it raises
    [SystemExit(1)]. *)
Theorem parse_config_converts_every_DeepTypeError
    (from_dict : Value -> list LogRecord * result ConfigSchema.t)
    (config_dict : Value) (log : list LogRecord)
    (outcome : result ConfigSchema.t) :
  parse_config from_dict config_dict = (log, outcome) ->
  (forall e, outcome = Raise e -> is_DeepTypeError e = false)
  /\ (forall config, outcome = Ok config <-> (from_dict config_dict).2 = Ok config)
  /\ exists extra,
      log = ((from_dict config_dict).1 ++ extra)%list
      /\ Forall (fun record => record.1 = CRITICAL) extra
      /\ (extra <> [] -> outcome = Raise (SystemExit 1)).
Proof.
  unfold parse_config.
  destruct (from_dict config_dict) as [l [config|err]]; simpl.
  - intros [= <- <-]. split; [done|]. split; [done|].
    exists []. by rewrite app_nil_r.
  - destruct (is_DeepTypeError err) eqn:Herr; intros [= <- <-].
    + split; [by intros e [= <-]|]. split; [done|].
      eexists. split; [reflexivity|]. split; [by repeat constructor | done].
    + split; [by intros e [= <-]|]. split; [done|].
      exists []. by rewrite app_nil_r.
Qed.

Lemma parse_config_converts_every_DeepTypeError_witness :
  parse_config example_from_dict (VStr "config")
  = ([(CRITICAL, "Error in the configuration file, aborting.");
      (CRITICAL, "Not a dict")],
     Raise (SystemExit 1))
  /\ forall e, Raise (A := ConfigSchema.t) (SystemExit 1) = Raise e ->
               is_DeepTypeError e = false.
Proof.
  split; [reflexivity|].
  exact (proj1 (parse_config_converts_every_DeepTypeError example_from_dict
                  (VStr "config") _ _ eq_refl)).
Defined.

Section LoadingFacts.

Variable py_float : string -> result spec_float.
Variable extract_nested_type : PyType -> list string -> result PyType.
Variable inject_nested_value : Value -> list string -> Value -> Value * result unit.
Variable from_dict : Value -> list LogRecord * result ConfigSchema.t.

(** A failure of the overrides is the outcome of [load_config]. *)
Lemma load_config_override_failure raw overrides after e :
  override_config_dict py_float extract_nested_type inject_nested_value
    raw overrides = (after, Raise e) ->
  load_config py_float extract_nested_type inject_nested_value from_dict
    (Ok raw) overrides = ([], Raise e).
Proof. intros H. unfold load_config, load_raw_config. by rewrite H. Qed.

Lemma load_config_overridden raw overrides after returned :
  override_config_dict py_float extract_nested_type inject_nested_value
    raw overrides = (after, Ok returned) ->
  load_config py_float extract_nested_type inject_nested_value from_dict
    (Ok raw) overrides = parse_config from_dict returned.
Proof. intros H. unfold load_config, load_raw_config. by rewrite H. Qed.

Lemma iterate_empty_strings (empties : list string) :
  Forall (fun s => s = EmptyString) empties ->
  concat (iterate_str <$> empties) = [].
Proof. induction 1 as [|s l -> _ IH]; simpl; [done | exact IH]. Qed.

(** The override of one character fails as soon as the navigator rejects
    the path made of one empty segment. *)
Lemma override_one_character config_dict c err :
  extract_nested_type TConfigSchema [EmptyString] = Raise err ->
  is_Exception err = true ->
  override_one py_float extract_nested_type inject_nested_value
    config_dict (String c EmptyString)
  = (config_dict,
     Raise (Exc RuntimeError ("Can't parse override: " +:+ String c EmptyString)
              (Some err))).
Proof.
  intros Hnav He. apply override_one_wraps; [|done].
  destruct (rpartition_one_character c) as (sep & value & Hr).
  rewrite (override_body_parts _ _ _ _ _ _ _ _ Hr). simpl. by rewrite Hnav.
Qed.

End LoadingFacts.

(** X14: an override that cannot be applied is not reported as a
    validation failure.  [load_config] then raises what
    [override_config_dict] raised, without calling [from_dict] and without
    logging; when that is an [Exception], it is the wrapping
    [RuntimeError], which is no [DeepTypeError] and ends the program as an
    unhandled exception instead of the exit with status 1. *)
Theorem load_config_override_failure_unhandled
    (py_float : string -> result spec_float)
    (extract_nested_type : PyType -> list string -> result PyType)
    (inject_nested_value : Value -> list string -> Value -> Value * result unit)
    (from_dict : Value -> list LogRecord * result ConfigSchema.t)
    (raw after : Value) (overrides : option (list (list string))) (e : exn) :
  override_config_dict py_float extract_nested_type inject_nested_value
    raw overrides = (after, Raise e) ->
  load_config py_float extract_nested_type inject_nested_value from_dict
    (Ok raw) overrides = ([], Raise e)
  /\ (is_Exception e = true ->
      is_DeepTypeError e = false
      /\ terminate
           (load_config py_float extract_nested_type inject_nested_value from_dict
              (Ok raw) overrides).2
         = Unhandled e).
Proof.
  intros H. rewrite (load_config_override_failure _ _ _ _ _ _ _ _ H).
  split; [done|]. intros He.
  rewrite override_config_dict_loop in H.
  destruct (override_loop _ _ _ raw (concat (default [] overrides)))
    as [c [[]|e']] eqn:Hloop; [done|].
  injection H as <- <-.
  destruct (override_loop_raises _ _ _ _ _ _ _ Hloop)
    as (pre & o & post & reached & cause & _ & _ & _ & Hwrapped).
  destruct (is_Exception cause) eqn:Hc; [|congruence].
  subst e'. by split.
Qed.

Lemma load_config_override_failure_unhandled_witness :
  spec_override_config_dict example_float (VDict []) (Some [["dimension=abc"]])
  = (VDict [],
     Raise (Exc RuntimeError "Can't parse override: dimension=abc"
              (Some (Exc ValueError
                       "invalid literal for int() with base 10: 'abc'" None))))
  /\ load_config example_float spec_extract_nested_type spec_inject_nested_value
       example_from_dict (Ok (VDict [])) (Some [["dimension=abc"]])
     = ([],
        Raise (Exc RuntimeError "Can't parse override: dimension=abc"
                 (Some (Exc ValueError
                          "invalid literal for int() with base 10: 'abc'" None)))).
Proof.
  split; [reflexivity|].
  exact (proj1 (load_config_override_failure_unhandled example_float
                  spec_extract_nested_type spec_inject_nested_value
                  example_from_dict (VDict []) (VDict [])
                  (Some [["dimension=abc"]]) _ eq_refl)).
Defined.

(** X15: [main] flattens the [-p] arguments before passing them on and
    [override_config_dict] flattens once more, so what is applied are the
    single characters of the arguments.  With a navigator that rejects the
    path made of one empty segment, the first character of the first
    non-empty argument is then reported as the override that cannot be
    parsed, and no configuration is loaded. *)
Theorem main_overrides_split_into_characters
    (py_float : string -> result spec_float)
    (extract_nested_type : PyType -> list string -> result PyType)
    (inject_nested_value : Value -> list string -> Value -> Value * result unit)
    (from_dict : Value -> list LogRecord * result ConfigSchema.t)
    (raw : Value) (param : list (list string))
    (empties more : list string) (c : ascii) (rest : string) (err : exn) :
  concat param = (empties ++ String c rest :: more)%list ->
  Forall (fun s => s = EmptyString) empties ->
  extract_nested_type TConfigSchema [EmptyString] = Raise err ->
  is_Exception err = true ->
  main_load_config py_float extract_nested_type inject_nested_value from_dict
    (Ok raw) (Some param)
  = ([],
     Raise (Exc RuntimeError ("Can't parse override: " +:+ String c EmptyString)
              (Some err))).
Proof.
  intros Hflat Hempty Hnav He.
  unfold main_load_config, main_overrides.
  apply (load_config_override_failure _ _ _ _ _ _ raw).
  rewrite override_config_dict_loop. simpl.
  rewrite Hflat, fmap_app, concat_app, (iterate_empty_strings _ Hempty). simpl.
  by rewrite (override_one_character _ _ _ _ _ _ Hnav He).
Qed.

Lemma main_overrides_split_into_characters_witness :
  concat [["dimension=400"; "comparator=dot"]]
  = ([] ++ String "d" "imension=400" :: ["comparator=dot"])%list
  /\ spec_extract_nested_type TConfigSchema [EmptyString]
     = Raise (Exc PathError "unknown attribute " None)
  /\ main_load_config example_float spec_extract_nested_type
       spec_inject_nested_value example_from_dict
       (Ok (VDict [("dimension", VInt 100)]))
       (Some [["dimension=400"; "comparator=dot"]])
     = ([],
        Raise (Exc RuntimeError "Can't parse override: d"
                 (Some (Exc PathError "unknown attribute " None)))).
Proof.
  split; [reflexivity|]. split; [reflexivity|].
  exact (main_overrides_split_into_characters example_float
           spec_extract_nested_type spec_inject_nested_value example_from_dict
           (VDict [("dimension", VInt 100)]) [["dimension=400"; "comparator=dot"]]
           [] ["comparator=dot"] "d" "imension=400"
           (Exc PathError "unknown attribute " None)
           eq_refl (List.Forall_nil _) eq_refl eq_refl).
Defined.

(** ** Clients of the loader *)

Lemma run_calls_cons call calls w :
  run_calls (call :: calls) w
  = ((run_calls calls (call_effect call w).1).1,
     (call_effect call w).2 :: (run_calls calls (call_effect call w).1).2).
Proof.
  simpl. destruct (call_effect call w) as [w' outcome]. simpl.
  by destruct (run_calls calls w') as [w'' outcomes].
Qed.

Lemma run_calls_app calls1 calls2 w :
  run_calls (calls1 ++ calls2) w
  = ((run_calls calls2 (run_calls calls1 w).1).1,
     ((run_calls calls1 w).2 ++ (run_calls calls2 (run_calls calls1 w).1).2)%list).
Proof.
  revert w. induction calls1 as [|call calls1 IH]; intros w.
  - simpl. by destruct (run_calls calls2 w).
  - change ((call :: calls1) ++ calls2)%list with (call :: (calls1 ++ calls2))%list.
    rewrite !run_calls_cons, IH. done.
Qed.

(** What a release does to the world, in terms of the loader's directory. *)
Lemma del_world self w :
  (ConfigFileLoader.__del__ self w).1.1 = w
  \/ exists d l1 l2,
      ConfigFileLoader.config_dir self = Some d
      /\ path_entries w = (l1 ++ TemporaryDirectory.name d :: l2)%list
      /\ path_entries (ConfigFileLoader.__del__ self w).1.1 = (l1 ++ l2)%list
      /\ directories (ConfigFileLoader.__del__ self w).1.1
         = (ConfigFileLoader.cleanup d (directories w)).1.2.
Proof.
  unfold ConfigFileLoader.__del__.
  destruct (ConfigFileLoader.sys_path self); [|by left].
  destruct (ConfigFileLoader.config_dir self) as [d|]; [|by left].
  destruct (list_remove (TemporaryDirectory.name d) (path_entries w)) as [entries|] eqn:Hr;
    [|by left].
  right. apply list_remove_Some in Hr as (l1 & l2 & Hsplit & _ & ->).
  exists d, l1, l2. split; [done|]. split; [done|].
  by destruct (ConfigFileLoader.cleanup d (directories w)) as [[d' dirs] outcome].
Qed.

Local Abbreviation call_within owned call :=
  (match call with
   | CallInit (Ok dir_name) => dir_name ∈ owned
   | CallInit (Raise _) => True
   | CallDel self =>
       forall d, ConfigFileLoader.config_dir self = Some d ->
                 TemporaryDirectory.name d ∈ owned
   | CallAddToSysPath path => path ∉ owned
   end).

Local Abbreviation added_path call :=
  (match call with
   | CallAddToSysPath path => Some path
   | _ => None
   end).

Local Abbreviation outside owned x :=
  (forall d, d ∈ (owned : gset string) -> is_under d x = false).

Lemma call_effect_del self w :
  (call_effect (CallDel self) w).1 = (ConfigFileLoader.__del__ self w).1.1.
Proof. simpl. by destruct (ConfigFileLoader.__del__ self w) as [[? ?] ?]. Qed.

Lemma call_effect_del_outcome self w :
  (call_effect (CallDel self) w).2 = (ConfigFileLoader.__del__ self w).2.
Proof. simpl. by destruct (ConfigFileLoader.__del__ self w) as [[? ?] ?]. Qed.

Lemma call_effect_init tmp w :
  (call_effect (CallInit tmp) w).1 = (ConfigFileLoader.__init__ tmp w).1.1.
Proof. simpl. by destruct (ConfigFileLoader.__init__ tmp w) as [[? ?] ?]. Qed.

(** One call leaves alone the foreign entries of the path and what lies
    outside of the owned directories on disk. *)
Lemma call_effect_frame (owned : gset string) call w :
  call_within owned call ->
  filter (fun x => x ∉ owned) (path_entries (call_effect call w).1)
  = (filter (fun x => x ∉ owned) (path_entries w)
     ++ match added_path call with Some path => [path] | None => [] end)%list
  /\ forall x, outside owned x ->
       x ∈ directories (call_effect call w).1 <-> x ∈ directories w.
Proof.
  intros Hcall. destruct call as [[dir_name|e]|self|path].
  - rewrite call_effect_init. simpl. split.
    + rewrite filter_app, filter_cons_False, filter_nil by (by intros H). done.
    + intros x Hx. rewrite elem_of_union, elem_of_singleton.
      split; [intros [-> | H]; [|exact H] | by right].
      specialize (Hx dir_name Hcall). by rewrite is_under_refl in Hx.
  - rewrite call_effect_init. simpl. by rewrite app_nil_r.
  - rewrite call_effect_del.
    destruct (del_world self w) as [-> | (d & l1 & l2 & Hd & Hsplit & Hentries & Hdirs)].
    + by rewrite app_nil_r.
    + specialize (Hcall d Hd). split.
      * rewrite Hentries, Hsplit, !filter_app, filter_cons_False by (by intros H).
        by rewrite app_nil_r.
      * intros x Hx. rewrite Hdirs.
        by apply (cleanup_directories d (directories w)), Hx.
  - simpl. split; [|done].
    by rewrite filter_app, filter_cons_True, filter_nil by done.
Qed.

(** X16: loaders never touch what is not theirs.  Let a client make any
    sequence of loader constructions, loader releases (repeated ones and
    releases after a failed construction included) and [add_to_sys_path]
    calls, the directories of the loaders lying in a set [owned] and the
    added paths outside of it.  Then the search-path entries outside of
    [owned] are, in order, those present at the start followed by those
    added; and on disk, a path that is none of the directories in [owned]
    and lies inside none of them exists afterwards exactly when it existed
    before. *)
Theorem loader_calls_keep_foreign_entries
    (owned : gset string) (calls : list LoaderCall) (w : World) :
  Forall (fun call =>
            match call with
            | CallInit (Ok dir_name) => dir_name ∈ owned
            | CallInit (Raise _) => True
            | CallDel self =>
                forall d, ConfigFileLoader.config_dir self = Some d ->
                          TemporaryDirectory.name d ∈ owned
            | CallAddToSysPath path => path ∉ owned
            end) calls ->
  filter (fun x => x ∉ owned) (path_entries (run_calls calls w).1)
  = (filter (fun x => x ∉ owned) (path_entries w)
     ++ omap (fun call => match call with
                          | CallAddToSysPath path => Some path
                          | _ => None
                          end) calls)%list
  /\ forall x, (forall d, d ∈ owned -> is_under d x = false) ->
       x ∈ directories (run_calls calls w).1 <-> x ∈ directories w.
Proof.
  intros Hcalls. revert w.
  induction Hcalls as [|call calls Hcall _ IH]; intros w.
  { simpl. by rewrite app_nil_r. }
  rewrite run_calls_cons. simpl fst.
  destruct (IH (call_effect call w).1) as [IHpath IHdirs].
  destruct (call_effect_frame owned call w Hcall) as [Hpath Hdirs].
  split.
  - rewrite IHpath, Hpath, <- app_assoc. f_equal.
    by destruct call as [[?|?]|?|?].
  - intros x Hx. by rewrite (IHdirs x Hx), (Hdirs x Hx).
Qed.

Lemma loader_calls_keep_foreign_entries_witness :
  Forall (fun call =>
            match call with
            | CallInit (Ok dir_name) => dir_name ∈ ({["/tmp/a"; "/tmp/b"]} : gset string)
            | CallInit (Raise _) => True
            | CallDel self =>
                forall d, ConfigFileLoader.config_dir self = Some d ->
                          TemporaryDirectory.name d
                            ∈ ({["/tmp/a"; "/tmp/b"]} : gset string)
            | CallAddToSysPath path => path ∉ ({["/tmp/a"; "/tmp/b"]} : gset string)
            end)
    [CallInit (Ok "/tmp/a"); CallAddToSysPath "/extra"; CallInit (Ok "/tmp/b");
     CallDel (loader_of "/tmp/a"); CallDel (loader_of "/tmp/a");
     CallInit (Raise (Exc OSError "No space left on device" None));
     CallDel (loader_of "/tmp/b")]
  /\ run_calls
       [CallInit (Ok "/tmp/a"); CallAddToSysPath "/extra"; CallInit (Ok "/tmp/b");
        CallDel (loader_of "/tmp/a"); CallDel (loader_of "/tmp/a");
        CallInit (Raise (Exc OSError "No space left on device" None));
        CallDel (loader_of "/tmp/b")]
       {| path_entries := ["/usr/lib/python3"];
          directories := {["/tmp/a/__pycache__"; "/tmp/ab"]} |}
     = ({| path_entries := ["/usr/lib/python3"; "/extra"];
           directories := {["/tmp/ab"]} |},
        [Ok tt; Ok tt; Ok tt; Ok tt;
         Raise (Exc ValueError "list.remove(x): x not in list" None);
         Raise (Exc OSError "No space left on device" None);
         Ok tt])
  /\ filter (fun x => x ∉ ({["/tmp/a"; "/tmp/b"]} : gset string))
       (path_entries
          (run_calls
             [CallInit (Ok "/tmp/a"); CallAddToSysPath "/extra"; CallInit (Ok "/tmp/b");
              CallDel (loader_of "/tmp/a"); CallDel (loader_of "/tmp/a");
              CallInit (Raise (Exc OSError "No space left on device" None));
              CallDel (loader_of "/tmp/b")]
             {| path_entries := ["/usr/lib/python3"];
                directories := {["/tmp/a/__pycache__"; "/tmp/ab"]} |}).1)
     = (filter (fun x => x ∉ ({["/tmp/a"; "/tmp/b"]} : gset string))
          ["/usr/lib/python3"] ++ ["/extra"])%list.
Proof.
  assert ("/tmp/a" ∈ ({["/tmp/a"; "/tmp/b"]} : gset string)) as Ha.
  { apply elem_of_union_l. by apply elem_of_singleton. }
  assert ("/tmp/b" ∈ ({["/tmp/a"; "/tmp/b"]} : gset string)) as Hb.
  { apply elem_of_union_r. by apply elem_of_singleton. }
  assert ("/extra" ∉ ({["/tmp/a"; "/tmp/b"]} : gset string)) as Hx.
  { intros [H|H]%elem_of_union; apply elem_of_singleton in H; discriminate H. }
  assert (Forall (fun call =>
            match call with
            | CallInit (Ok dir_name) => dir_name ∈ ({["/tmp/a"; "/tmp/b"]} : gset string)
            | CallInit (Raise _) => True
            | CallDel self =>
                forall d, ConfigFileLoader.config_dir self = Some d ->
                          TemporaryDirectory.name d
                            ∈ ({["/tmp/a"; "/tmp/b"]} : gset string)
            | CallAddToSysPath path => path ∉ ({["/tmp/a"; "/tmp/b"]} : gset string)
            end)
    [CallInit (Ok "/tmp/a"); CallAddToSysPath "/extra"; CallInit (Ok "/tmp/b");
     CallDel (loader_of "/tmp/a"); CallDel (loader_of "/tmp/a");
     CallInit (Raise (Exc OSError "No space left on device" None));
     CallDel (loader_of "/tmp/b")]) as Hcalls.
  { repeat constructor; try done; by intros d [= <-]. }
  split; [exact Hcalls|]. split; [by vm_compute|].
  exact (proj1 (loader_calls_keep_foreign_entries {["/tmp/a"; "/tmp/b"]} _
                  {| path_entries := ["/usr/lib/python3"];
                     directories := {["/tmp/a/__pycache__"; "/tmp/ab"]} |}
                  Hcalls)).
Defined.

(** ** Acquiring and releasing several loaders *)

Lemma list_remove_app_r x (p l : list string) :
  x ∉ p -> list_remove x (p ++ l) = (fun l' => (p ++ l')%list) <$> list_remove x l.
Proof.
  induction p as [|y p IH]; intros Hnot; simpl.
  - by destruct (list_remove x l).
  - apply not_elem_of_cons in Hnot as [Hne Hnot].
    rewrite decide_False by done. rewrite (IH Hnot).
    by destruct (list_remove x l).
Qed.

Lemma filter_all (P : string -> Prop) `{forall x, Decision (P x)} (l : list string) :
  (forall x, x ∈ l -> P x) -> filter P l = l.
Proof.
  induction l as [|y l IH]; intros Hall; [done|].
  rewrite filter_cons_True by apply Hall, list_elem_of_here.
  f_equal. apply IH. intros x Hx. by apply Hall, list_elem_of_further.
Qed.

Lemma filter_none (P : string -> Prop) `{forall x, Decision (P x)} (l : list string) :
  (forall x, x ∈ l -> ~ P x) -> filter P l = [].
Proof.
  induction l as [|y l IH]; intros Hall; [done|].
  rewrite filter_cons_False by apply Hall, list_elem_of_here.
  apply IH. intros x Hx. by apply Hall, list_elem_of_further.
Qed.

(** Among distinct names, removing one that is still listed restricts the
    listed names to the others. *)
Lemma list_remove_filter d (tail l : list string) :
  NoDup l -> d ∈ l -> d ∉ tail ->
  list_remove d (filter (fun x => x ∈ d :: tail) l)
  = Some (filter (fun x => x ∈ tail) l).
Proof.
  intros Hnd Hin Hnot. induction Hnd as [|y l Hy Hnd IH].
  - by apply elem_of_nil in Hin.
  - destruct (decide (y = d)) as [->|Hne].
    + rewrite filter_cons_True by apply list_elem_of_here.
      rewrite filter_cons_False by done.
      simpl. rewrite decide_True by done. f_equal.
      clear IH Hin. induction l as [|z l IHl]; [done|].
      apply not_elem_of_cons in Hy as [Hzd Hy]. apply NoDup_cons in Hnd as [_ Hnd].
      destruct (decide (z ∈ tail)) as [Hz|Hz].
      * rewrite !filter_cons_True by (done || by apply list_elem_of_further).
        f_equal. by apply IHl.
      * rewrite !filter_cons_False; [by apply IHl | done |].
        intros [?|?]%elem_of_cons; done.
    + apply elem_of_cons in Hin as [?|Hin]; [done|].
      destruct (decide (y ∈ tail)) as [Hz|Hz].
      * rewrite !filter_cons_True by (done || by apply list_elem_of_further).
        simpl. rewrite decide_False by done. by rewrite (IH Hin).
      * rewrite !filter_cons_False; [by apply IH | done |].
        intros [?|?]%elem_of_cons; done.
Qed.

(** Constructing loaders for [names] appends the names and creates the
    directories. *)
Lemma run_inits names w :
  path_entries (run_calls ((fun d => CallInit (Ok d)) <$> names) w).1
  = (path_entries w ++ names)%list
  /\ (forall x,
        x ∈ directories (run_calls ((fun d => CallInit (Ok d)) <$> names) w).1
        <-> x ∈ names \/ x ∈ directories w)
  /\ (run_calls ((fun d => CallInit (Ok d)) <$> names) w).2
     = replicate (length names) (Ok tt).
Proof.
  revert w. induction names as [|d names IH]; intros w.
  - simpl. rewrite app_nil_r. split; [done|]. split; [|done].
    intros x. rewrite elem_of_nil. tauto.
  - rewrite fmap_cons, run_calls_cons. cbn [fst snd].
    rewrite call_effect_init, init_Ok. cbn [fst snd].
    destruct (IH {| path_entries := (path_entries w ++ [d])%list;
                    directories := {[d]} ∪ directories w |})
      as (Hpath & Hdirs & Houts).
    split; [|split].
    + rewrite Hpath. simpl. by rewrite <- app_assoc.
    + intros x. rewrite Hdirs. simpl.
      rewrite elem_of_union, elem_of_singleton, elem_of_cons. tauto.
    + by rewrite Houts.
Qed.

(** Releasing the loaders of [order], all still listed: what was on disk
    before the constructions stays, and of the rest only directories not
    yet released. *)
Lemma run_releases (path0 : list string) (dirs0 : gset string) (names : list string) :
  NoDup names ->
  (forall d, d ∈ names ->
             (d ∉ path0) /\ (forall p, p ∈ dirs0 -> is_under d p = false)) ->
  forall order w,
    NoDup order ->
    (forall d, d ∈ order -> d ∈ names) ->
    path_entries w = (path0 ++ filter (fun x => x ∈ order) names)%list ->
    (forall x, x ∈ dirs0 -> x ∈ directories w) ->
    (forall x, x ∈ directories w -> x ∈ dirs0 \/ x ∈ order) ->
    path_entries (run_calls ((fun d => CallDel (loader_of d)) <$> order) w).1 = path0
    /\ (forall x,
          x ∈ directories (run_calls ((fun d => CallDel (loader_of d)) <$> order) w).1
          <-> x ∈ dirs0)
    /\ (run_calls ((fun d => CallDel (loader_of d)) <$> order) w).2
       = replicate (length order) (Ok tt).
Proof.
  intros Hnd Hfresh order.
  induction order as [|d tail IH]; intros w Hndo Hsub Hpath Hkept Hrest.
  - simpl. split; [|split; [|done]].
    + rewrite Hpath, filter_none; [by rewrite app_nil_r|].
      intros x _ Hx. by apply elem_of_nil in Hx.
    + intros x. split; [|apply Hkept].
      intros [H|H]%Hrest; [done | by apply elem_of_nil in H].
  - apply NoDup_cons in Hndo as [Hd Hndo].
    assert (d ∈ names) as Hdn by apply Hsub, list_elem_of_here.
    destruct (Hfresh d Hdn) as [Hdp Hdd].
    assert (list_remove d (path_entries w)
            = Some (path0 ++ filter (fun x => x ∈ tail) names)%list) as Hr.
    { rewrite Hpath, (list_remove_app_r _ _ _ Hdp).
      by rewrite (list_remove_filter d tail names Hnd Hdn Hd). }
    assert (ConfigFileLoader.__del__ (loader_of d) w
            = ({| path_entries := (path0 ++ filter (fun x => x ∈ tail) names)%list;
                  directories := rmtree d (directories w) |},
               {| ConfigFileLoader.config_dir :=
                    Some {| TemporaryDirectory.name := d;
                            TemporaryDirectory.finalizer_alive := false |};
                  ConfigFileLoader.sys_path := Some the_sys_path |},
               Ok tt)) as Hdel.
    { rewrite (del_removes (loader_of d)
                 {| TemporaryDirectory.name := d;
                    TemporaryDirectory.finalizer_alive := true |}
                 w _ eq_refl eq_refl Hr).
      by rewrite cleanup_attached. }
    rewrite fmap_cons, run_calls_cons. cbn [fst snd].
    cbn beta.
    rewrite call_effect_del, Hdel. cbn [fst snd].
    destruct (IH {| path_entries := (path0 ++ filter (fun x => x ∈ tail) names)%list;
                    directories := rmtree d (directories w) |})
      as (IHpath & IHdirs & IHouts); [done | | done | | |].
    + intros x Hx. by apply Hsub, list_elem_of_further.
    + intros x Hx. simpl. apply elem_of_rmtree. split; [by apply Hdd | by apply Hkept].
    + intros x. simpl. intros [Hout Hx]%elem_of_rmtree.
      destruct (Hrest x Hx) as [?|[->|?]%elem_of_cons]; [by left | | by right].
      by rewrite is_under_refl in Hout.
    + split; [done|]. split; [done|].
      rewrite call_effect_del_outcome, Hdel. cbn [snd length replicate].
      by rewrite IHouts.
Qed.

(** X17: loaders can be released in any order.  When a client constructs
    loaders whose directories are pairwise different and new to the search
    path and to the disk (no path on disk is one of them or lies inside
    one of them), and then releases each of them once, in any order, every
    call succeeds and the search path and the disk are exactly as before
    the first construction. *)
Theorem loaders_released_in_any_order (w : World) (names order : list string) :
  NoDup names ->
  (forall d, d ∈ names ->
             (d ∉ path_entries w)
             /\ (forall p, p ∈ directories w -> is_under d p = false)) ->
  order ≡ₚ names ->
  run_calls
    (((fun d => CallInit (Ok d)) <$> names)
       ++ ((fun d => CallDel (loader_of d)) <$> order))%list w
  = (w, replicate (length names + length order) (Ok tt)).
Proof.
  intros Hnd Hfresh Hperm. rewrite run_calls_app.
  destruct (run_inits names w) as (Hpath & Hdirs & Houts).
  assert (forall x, x ∈ order <-> x ∈ names) as Hmem.
  { intros x. by rewrite Hperm. }
  destruct (run_releases (path_entries w) (directories w) names
              Hnd Hfresh order
              (run_calls ((fun d => CallInit (Ok d)) <$> names) w).1)
    as (Rpath & Rdirs & Routs).
  - by rewrite Hperm.
  - intros d. by apply Hmem.
  - rewrite Hpath, filter_all; [done|]. intros x. by apply Hmem.
  - intros x Hx. apply Hdirs. by right.
  - intros x [Hx|Hx]%Hdirs; [right; by apply Hmem | by left].
  - rewrite Houts, Routs, replicate_add. f_equal.
    destruct (run_calls _ (run_calls _ w).1).1 as [path' dirs'].
    destruct w as [path0 dirs0]. simpl in *. f_equal; [done|].
    apply set_eq. exact Rdirs.
Qed.

Lemma loaders_released_in_any_order_witness :
  NoDup ["/tmp/a"; "/tmp/b"; "/tmp/c"]
  /\ ["/tmp/b"; "/tmp/c"; "/tmp/a"] ≡ₚ ["/tmp/a"; "/tmp/b"; "/tmp/c"]
  /\ run_calls
       [CallInit (Ok "/tmp/a"); CallInit (Ok "/tmp/b"); CallInit (Ok "/tmp/c");
        CallDel (loader_of "/tmp/b"); CallDel (loader_of "/tmp/c");
        CallDel (loader_of "/tmp/a")]
       {| path_entries := ["/usr/lib/python3"]; directories := {["/home"]} |}
     = ({| path_entries := ["/usr/lib/python3"]; directories := {["/home"]} |},
        [Ok tt; Ok tt; Ok tt; Ok tt; Ok tt; Ok tt]).
Proof.
  assert (NoDup ["/tmp/a"; "/tmp/b"; "/tmp/c"]) as Hnd.
  { repeat constructor; rewrite ?elem_of_cons, ?elem_of_nil;
      intros H; repeat (destruct H as [H|H]); done. }
  assert (["/tmp/b"; "/tmp/c"; "/tmp/a"] ≡ₚ ["/tmp/a"; "/tmp/b"; "/tmp/c"]) as Hperm.
  { apply NoDup_Permutation; [|exact Hnd|].
    - repeat constructor; rewrite ?elem_of_cons, ?elem_of_nil;
        intros H; repeat (destruct H as [H|H]); done.
    - intros x. rewrite !elem_of_cons, !elem_of_nil. tauto. }
  split; [exact Hnd|]. split; [exact Hperm|].
  apply (loaders_released_in_any_order
           {| path_entries := ["/usr/lib/python3"]; directories := {["/home"]} |}
           ["/tmp/a"; "/tmp/b"; "/tmp/c"] ["/tmp/b"; "/tmp/c"; "/tmp/a"] Hnd);
    [|exact Hperm].
  intros d Hd. simpl. rewrite list_elem_of_singleton.
  rewrite !elem_of_cons, elem_of_nil in Hd.
  destruct Hd as [->|[->|[->|[]]]]; (split; [discriminate|]);
    by intros p ->%elem_of_singleton.
Defined.

(** ** [main] without overrides *)

Lemma iterate_empty_groups (groups : list (list string)) :
  Forall (Forall (fun s => s = EmptyString)) groups ->
  concat (iterate_str <$> concat groups) = [].
Proof.
  intros H. apply iterate_empty_strings.
  induction H as [|group groups Hgroup _ IH]; simpl; [constructor|].
  by apply Forall_app.
Qed.

(** X18: when [-p] is absent, or is given with no argument or with empty
    arguments only, [main] applies no override: it validates the raw
    configuration exactly as the entry point of the file returned it, and
    a failure of the import is the outcome, with nothing logged. *)
Theorem main_without_overrides
    (py_float : string -> result spec_float)
    (extract_nested_type : PyType -> list string -> result PyType)
    (inject_nested_value : Value -> list string -> Value -> Value * result unit)
    (from_dict : Value -> list LogRecord * result ConfigSchema.t)
    (param : option (list (list string))) :
  (forall groups, param = Some groups ->
     Forall (Forall (fun s => s = EmptyString)) groups) ->
  (forall raw,
     main_load_config py_float extract_nested_type inject_nested_value from_dict
       (Ok raw) param
     = parse_config from_dict raw)
  /\ (forall e,
        main_load_config py_float extract_nested_type inject_nested_value from_dict
          (Raise e) param
        = ([], Raise e)).
Proof.
  intros Hparam. split; [|done]. intros raw.
  unfold main_load_config.
  apply (load_config_overridden _ _ _ _ _ _ raw).
  rewrite override_config_dict_loop.
  destruct param as [groups|]; simpl; [|done].
  by rewrite (iterate_empty_groups groups (Hparam groups eq_refl)).
Qed.

Lemma main_without_overrides_witness :
  Forall (Forall (fun s => s = EmptyString)) [[]; [EmptyString]]
  /\ main_load_config example_float spec_extract_nested_type
       spec_inject_nested_value example_from_dict
       (Ok (VStr "config")) (Some [[]; [EmptyString]])
     = ([(CRITICAL, "Error in the configuration file, aborting.");
         (CRITICAL, "Not a dict")],
        Raise (SystemExit 1)).
Proof.
  assert (Forall (Forall (fun s => s = EmptyString)) [[]; [EmptyString]]) as H.
  { repeat constructor. }
  split; [exact H|].
  apply (proj1 (main_without_overrides example_float spec_extract_nested_type
                  spec_inject_nested_value example_from_dict
                  (Some [[]; [EmptyString]])
                  (fun groups Heq =>
                     eq_ind _ (Forall (Forall (fun s => s = EmptyString))) H _
                       (f_equal (default []) Heq)))).
Defined.
